(** * blogdown: the AST-to-HTML renderer ([renderer/renderer.go])

    A shallow embedding of the renderer package and the properties of its
    content extractor, configuration extractor, recursive renderer and
    page-assembly entry point.

    Go strings are byte strings and are modelled by [string]; [[]byte] is
    [list byte]; a Go [map] is a [gmap]; a Go [(string, error)] result is the
    pair [string * option error], so that what a function returns next to a
    non-nil error is visible. *)

From Stdlib Require Import ZArith Ascii String List Lia.
From Stdlib.Strings Require Import Byte.
From stdpp Require Import base strings gmap list pretty.

Local Open Scope string_scope.
Local Open Scope Z_scope.
Local Open Scope list_scope.

(** ** The parts of Go's standard library the renderer calls *)

(** An [error] is represented by its message. *)
Definition error : Type := string.

(** [interface{}] values that a front-matter scalar or a template
    configuration entry can hold.  Floating-point scalars are left out. *)
Inductive GoValue : Type :=
  | VString (s : string)
  | VInt (i : Z)
  | VBool (b : bool)
  | VNil.

Definition quote : string := String "034"%char EmptyString.
Definition newline : string := String "010"%char EmptyString.

Module strings.

(** [strings.HasPrefix] *)
Fixpoint HasPrefix (s pre : string) : bool :=
  match pre, s with
  | EmptyString, _ => true
  | String _ _, EmptyString => false
  | String c pre', String d s' => if Ascii.eqb c d then HasPrefix s' pre' else false
  end.

(** [strings.Join] *)
Fixpoint Join (elems : list string) (sep : string) : string :=
  match elems with
  | [] => ""
  | [x] => x
  | x :: xs => x +:+ sep +:+ Join xs sep
  end.

(** [s[n:]] *)
Fixpoint from (n : nat) (s : string) : string :=
  match n, s with
  | O, _ => s
  | S _, EmptyString => EmptyString
  | S n', String _ s' => from n' s'
  end.

(** [strings.HasSuffix]:
    [len(s) >= len(suffix) && s[len(s)-len(suffix):] == suffix] *)
Definition HasSuffix (s suffix : string) : bool :=
  (String.length suffix <=? String.length s)%nat
  && String.eqb (from (String.length s - String.length suffix) s) suffix.

End strings.

Module fmt.

(** [fmt.Sprintf("%s", v)] for an [interface{}] operand: a string is
    printed as it is; for the other scalars [%s] is no valid verb and
    [fmt] prints its bad-verb form [%!s(type=value)]. *)
Definition Sprintf_s (v : GoValue) : string :=
  match v with
  | VString s => s
  | VInt i => "%!s(int=" +:+ pretty i +:+ ")"
  | VBool b => "%!s(bool=" +:+ (if b then "true" else "false") +:+ ")"
  | VNil => "%!s(<nil>)"
  end.

(** [fmt.Sprintf("%v", v)], the default format of a value.  The renderer
    does not call it; it is what a conversion of a value with its default
    format would give. *)
Definition Sprintf_v (v : GoValue) : string :=
  match v with
  | VString s => s
  | VInt i => pretty i
  | VBool b => if b then "true" else "false"
  | VNil => "<nil>"
  end.

End fmt.

Module path.

(** Splits at every ["/"]; the result has one element more than the
    string has slashes. *)
Fixpoint split (s : string) : list string :=
  match s with
  | EmptyString => [EmptyString]
  | String c s' =>
      if Ascii.eqb c "/"%char then EmptyString :: split s'
      else match split s' with
           | [] => [String c EmptyString]
           | x :: xs => String c x :: xs
           end
  end.

(** One element of the lexical clean-up, on the reversed stack of the
    elements kept so far. *)
Definition cleanStep (rooted : bool) (stack : list string) (e : string) : list string :=
  if String.eqb e "" || String.eqb e "." then stack
  else if String.eqb e ".." then
    match stack with
    | top :: rest => if String.eqb top ".." then e :: stack else rest
    | [] => if rooted then [] else [e]
    end
  else e :: stack.

(** [path.Clean] *)
Definition Clean (p : string) : string :=
  let rooted := strings.HasPrefix p "/" in
  let out := strings.Join (rev (fold_left (cleanStep rooted) (split p) [])) "/" in
  if rooted then "/" +:+ out
  else if String.eqb out "" then "." else out.

(** [path.Join] *)
Definition Join (elem : list string) : string :=
  match filter (fun e => negb (String.eqb e "")) elem with
  | [] => ""
  | es => Clean (strings.Join es "/")
  end.

(** The part of [p] up to and including its last slash. *)
Fixpoint dirPart (p : string) : string :=
  match p with
  | EmptyString => EmptyString
  | String c p' =>
      let d := dirPart p' in
      if Ascii.eqb c "/"%char then String c d
      else match d with
           | EmptyString => EmptyString
           | _ => String c d
           end
  end.

(** [path.Dir] *)
Definition Dir (p : string) : string := Clean (dirPart p).

(** The elements of a path that the clean-up keeps as they are. *)
Definition kept (e : string) : bool := negb (String.eqb e "" || String.eqb e ".").

End path.

Module os.
(** [os.FileMode] bits *)
Definition ModeDir : Z := Z.shiftl 1 31.
Definition ModeAppend : Z := Z.shiftl 1 30.
(** [os.ModePerm], the Unix permission bits [0777] *)
Definition ModePerm : Z := 511.
(** [FileMode.Perm]: the permission bits of a mode, which are what
    [os.MkdirAll] and [ioutil.WriteFile] give to what they create *)
Definition Perm (m : Z) : Z := Z.land m ModePerm.
End os.

(** ** goldmark's node kinds ([ast.NodeKind])

    The kinds of goldmark's core, and [KindExtension] for a kind registered
    by an extension under its name (the GFM extension the parser loads
    registers Table, TableRow, TableHeader, TableCell, Strikethrough and
    TaskCheckBox). *)
Module ast.

Inductive NodeKind : Type :=
  | KindDocument | KindTextBlock | KindParagraph | KindHeading
  | KindThematicBreak | KindCodeBlock | KindFencedCodeBlock
  | KindBlockquote | KindList | KindListItem | KindHTMLBlock
  | KindText | KindString | KindCodeSpan | KindEmphasis | KindLink
  | KindImage | KindAutoLink | KindRawHTML
  | KindExtension (name : string).

(** [NodeKind.String], which [%s] prints. *)
Definition NodeKind_String (k : NodeKind) : string :=
  match k with
  | KindDocument => "Document" | KindTextBlock => "TextBlock"
  | KindParagraph => "Paragraph" | KindHeading => "Heading"
  | KindThematicBreak => "ThematicBreak" | KindCodeBlock => "CodeBlock"
  | KindFencedCodeBlock => "FencedCodeBlock" | KindBlockquote => "Blockquote"
  | KindList => "List" | KindListItem => "ListItem" | KindHTMLBlock => "HTMLBlock"
  | KindText => "Text" | KindString => "String" | KindCodeSpan => "CodeSpan"
  | KindEmphasis => "Emphasis" | KindLink => "Link" | KindImage => "Image"
  | KindAutoLink => "AutoLink" | KindRawHTML => "RawHTML"
  | KindExtension name => name
  end.

Definition NodeKind_code (k : NodeKind) : nat + string :=
  match k with
  | KindDocument => inl 0%nat | KindTextBlock => inl 1%nat
  | KindParagraph => inl 2%nat | KindHeading => inl 3%nat
  | KindThematicBreak => inl 4%nat | KindCodeBlock => inl 5%nat
  | KindFencedCodeBlock => inl 6%nat | KindBlockquote => inl 7%nat
  | KindList => inl 8%nat | KindListItem => inl 9%nat | KindHTMLBlock => inl 10%nat
  | KindText => inl 11%nat | KindString => inl 12%nat | KindCodeSpan => inl 13%nat
  | KindEmphasis => inl 14%nat | KindLink => inl 15%nat | KindImage => inl 16%nat
  | KindAutoLink => inl 17%nat | KindRawHTML => inl 18%nat
  | KindExtension name => inr name
  end.

Definition NodeKind_decode (c : nat + string) : NodeKind :=
  match c with
  | inl 0%nat => KindDocument | inl 1%nat => KindTextBlock
  | inl 2%nat => KindParagraph | inl 3%nat => KindHeading
  | inl 4%nat => KindThematicBreak | inl 5%nat => KindCodeBlock
  | inl 6%nat => KindFencedCodeBlock | inl 7%nat => KindBlockquote
  | inl 8%nat => KindList | inl 9%nat => KindListItem | inl 10%nat => KindHTMLBlock
  | inl 11%nat => KindText | inl 12%nat => KindString | inl 13%nat => KindCodeSpan
  | inl 14%nat => KindEmphasis | inl 15%nat => KindLink | inl 16%nat => KindImage
  | inl 17%nat => KindAutoLink | inl _ => KindRawHTML
  | inr name => KindExtension name
  end.

#[export] Instance NodeKind_eq_dec : EqDecision NodeKind.
Proof. solve_decision. Defined.

#[export] Instance NodeKind_countable : Countable NodeKind.
Proof.
  apply (inj_countable' NodeKind_code NodeKind_decode).
  intros []; reflexivity.
Defined.

(** A node as the renderer sees it: its dynamic type with the fields the
    renderer reads, its first child and its next sibling ([None] is Go's
    [nil]).  [Kind()] is fixed by the dynamic type, so a [switch] on the
    kind followed by the type assertion of that kind is a [match] on the
    payload. *)
Section Nodes.
(** goldmark's [text.Segment], a reference to a byte range. *)
Variable Segment : Type.

Inductive Payload : Type :=
  | Document | TextBlock | Paragraph
  | Heading (Level : Z)
  | ThematicBreak | CodeBlock
  | FencedCodeBlock (Lines : list Segment)
  | Blockquote | List | ListItem | HTMLBlock
  | Text (Segment' : Segment) (SoftLineBreak : bool)
  | String' | CodeSpan
  | Emphasis (Level : Z)
  | Link | Image | AutoLink | RawHTML
  | Extension (name : string).

#[local] Unset Elimination Schemes.
Inductive Node : Type :=
  mkNode { payload : Payload; FirstChild : option Node; NextSibling : option Node }.
#[local] Set Elimination Schemes.

Definition Kind (n : Node) : NodeKind :=
  match payload n with
  | Document => KindDocument | TextBlock => KindTextBlock
  | Paragraph => KindParagraph | Heading _ => KindHeading
  | ThematicBreak => KindThematicBreak | CodeBlock => KindCodeBlock
  | FencedCodeBlock _ => KindFencedCodeBlock | Blockquote => KindBlockquote
  | List => KindList | ListItem => KindListItem | HTMLBlock => KindHTMLBlock
  | Text _ _ => KindText | String' => KindString | CodeSpan => KindCodeSpan
  | Emphasis _ => KindEmphasis | Link => KindLink | Image => KindImage
  | AutoLink => KindAutoLink | RawHTML => KindRawHTML
  | Extension name => KindExtension name
  end.

(** Induction over a tree along its first-child and next-sibling links. *)
Fixpoint Node_links_ind (P : Node -> Prop)
    (step : forall p fc ns,
        (forall c, fc = Some c -> P c) ->
        (forall b, ns = Some b -> P b) -> P (mkNode p fc ns))
    (n : Node) {struct n} : P n :=
  match n with
  | mkNode p fc ns =>
      step p fc ns
        (match fc as o return forall c, o = Some c -> P c with
         | Some c' => fun c E =>
             eq_ind c' P (Node_links_ind P step c') c (Some_inj _ _ E)
         | None => fun c E => False_ind _ (None_ne_Some c E)
         end)
        (match ns as o return forall b, o = Some b -> P b with
         | Some b' => fun b E =>
             eq_ind b' P (Node_links_ind P step b') b (Some_inj _ _ E)
         | None => fun b E => False_ind _ (None_ne_Some b E)
         end)
  end.

(** The sibling chain that starts at [n], [n] included. *)
Fixpoint siblings (n : Node) : list Node :=
  n :: match NextSibling n with
       | Some b => siblings b
       | None => []
       end.

End Nodes.

Arguments Document {Segment}.
Arguments TextBlock {Segment}.
Arguments Paragraph {Segment}.
Arguments Heading {Segment}.
Arguments ThematicBreak {Segment}.
Arguments CodeBlock {Segment}.
Arguments FencedCodeBlock {Segment}.
Arguments Blockquote {Segment}.
Arguments List {Segment}.
Arguments ListItem {Segment}.
Arguments HTMLBlock {Segment}.
Arguments Text {Segment}.
Arguments String' {Segment}.
Arguments CodeSpan {Segment}.
Arguments Emphasis {Segment}.
Arguments Link {Segment}.
Arguments Image {Segment}.
Arguments AutoLink {Segment}.
Arguments RawHTML {Segment}.
Arguments Extension {Segment}.
Arguments mkNode {Segment}.
Arguments payload {Segment}.
Arguments FirstChild {Segment}.
Arguments NextSibling {Segment}.
Arguments Kind {Segment}.
Arguments siblings {Segment}.

End ast.

(** ** Package [renderer] *)
Module renderer.
Import ast.

(** Block templates *)
Definition DocumentTemplatePath := "../templates/block/document.tmpl.html".
Definition TextBlockTemplatePath := "../templates/block/text-block.tmpl.html".
Definition ParagraphTemplatePath := "../templates/block/paragraph.tmpl.html".
Definition HeadingTemplatePath := "../templates/block/heading.tmpl.html".
Definition ThematicBreakTemplatePath := "../templates/block/thematic-break.tmpl.html".
Definition CodeBlockTemplatePath := "../templates/block/code-block.tmpl.html".
Definition FencedCodeBlockTemplatePath := "../templates/block/fenced-code-block.tmpl.html".
Definition BlockquoteTemplatePath := "../templates/block/blockquote.tmpl.html".
Definition ListTemplatePath := "../templates/block/list.tmpl.html".
Definition ListItemTemplatePath := "../templates/block/list-item.tmpl.html".
Definition HTMLBlockTemplatePath := "../templates/block/html-block.tmpl.html".

(** Inline templates *)
Definition TextTemplatePath := "../templates/inline/text.tmpl.html".
Definition StringTemplatePath := "../templates/inline/string.tmpl.html".
Definition CodeSpanTemplatePath := "../templates/inline/code-span.tmpl.html".
Definition EmphasisTemplatePath := "../templates/inline/emphasis.tmpl.html".
Definition LinkTemplatePath := "../templates/inline/link.tmpl.html".
Definition ImageTemplatePath := "../templates/inline/image.tmpl.html".
Definition AutoLinkTemplatePath := "../templates/inline/auto-link.tmpl.html".
Definition RawHTMLTemplatePath := "../templates/inline/raw-html.tmpl.html".

Record PageMeta : Type := {
  Title : string;
  Description : string;
  Slug : string;
  Path : string
}.

Record TemplateData : Type := {
  Meta : PageMeta;
  Config : gmap string GoValue;
  Content : string;
  Children : string
}.

(** What the renderer takes from outside the repository: goldmark's
    segments, the [text/template] engine, [runtime.Caller] and the file
    system of the host.  [World] is the state of the host; reading a file
    and [os.Stat] leave it as it is. *)
Class Externals : Type := {
  Segment : Type;
  (** [Segment.Value(buffer)]: the bytes the segment refers to *)
  Segment_Value : Segment -> list byte -> list byte;
  Template : Type;
  (** [template.New("document").Parse(text)] *)
  template_Parse : string -> Template + error;
  (** [t.Execute(&buf, data)]: what was written to the buffer, and the error *)
  template_Execute : Template -> TemplateData -> string * option error;
  (** the file name of [runtime.Caller(0)], [None] when it is not ok *)
  runtime_Caller : option string;
  World : Type;
  ioutil_ReadFile : string -> World -> list byte + error;
  os_Stat : string -> World -> option error;
  os_IsNotExist : option error -> bool;
  os_MkdirAll : string -> Z -> World -> option error * World;
  ioutil_WriteFile : string -> list byte -> Z -> World -> option error * World
}.

(** The calls to the host a run makes, in the order it makes them. *)
Inductive Call : Type :=
  | CallReadFile (name : string)
  | CallStat (name : string)
  | CallMkdirAll (name : string) (perm : Z)
  | CallWriteFile (name : string) (data : list byte) (perm : Z).

Section Renderer.
Context {ext : Externals}.

Abbreviation Node := (ast.Node Segment).

(** The state a run threads: the package variable [KindTemplateMap], the
    host, and the log of the calls made to the host (oldest first). *)
Record State : Type := {
  KindTemplateMap : gmap NodeKind string;
  world : World;
  calls : list Call
}.

Definition log (c : Call) (s : State) : State :=
  {| KindTemplateMap := KindTemplateMap s; world := world s; calls := calls s ++ [c] |}.

Definition InitKindTemplateMap (s : State) : State :=
  let rendererPath :=
    match runtime_Caller with
    | Some filename => path.Dir filename
    | None => "./"
    end in
  let m : gmap NodeKind string := ∅ in
  let m := <[KindDocument := path.Join [rendererPath; DocumentTemplatePath]]> m in
  let m := <[KindTextBlock := path.Join [rendererPath; TextBlockTemplatePath]]> m in
  let m := <[KindParagraph := path.Join [rendererPath; ParagraphTemplatePath]]> m in
  let m := <[KindHeading := path.Join [rendererPath; HeadingTemplatePath]]> m in
  let m := <[KindThematicBreak := path.Join [rendererPath; ThematicBreakTemplatePath]]> m in
  let m := <[KindCodeBlock := path.Join [rendererPath; CodeBlockTemplatePath]]> m in
  let m := <[KindFencedCodeBlock := path.Join [rendererPath; FencedCodeBlockTemplatePath]]> m in
  let m := <[KindBlockquote := path.Join [rendererPath; BlockquoteTemplatePath]]> m in
  let m := <[KindList := path.Join [rendererPath; ListTemplatePath]]> m in
  let m := <[KindListItem := path.Join [rendererPath; ListItemTemplatePath]]> m in
  let m := <[KindHTMLBlock := path.Join [rendererPath; HTMLBlockTemplatePath]]> m in
  let m := <[KindText := path.Join [rendererPath; TextTemplatePath]]> m in
  let m := <[KindString := path.Join [rendererPath; StringTemplatePath]]> m in
  let m := <[KindCodeSpan := path.Join [rendererPath; CodeSpanTemplatePath]]> m in
  let m := <[KindEmphasis := path.Join [rendererPath; EmphasisTemplatePath]]> m in
  let m := <[KindLink := path.Join [rendererPath; LinkTemplatePath]]> m in
  let m := <[KindImage := path.Join [rendererPath; ImageTemplatePath]]> m in
  let m := <[KindAutoLink := path.Join [rendererPath; AutoLinkTemplatePath]]> m in
  let m := <[KindRawHTML := path.Join [rendererPath; RawHTMLTemplatePath]]> m in
  {| KindTemplateMap := m; world := world s; calls := calls s |}.

Definition getTemplateContent (nodeKind : NodeKind) (s : State)
    : string * option error * State :=
  let s := if (size (KindTemplateMap s) =? 0)%nat then InitKindTemplateMap s else s in
  match KindTemplateMap s !! nodeKind with
  | None =>
      ("", Some ("rendering error: node kind (" +:+ NodeKind_String nodeKind
                 +:+ ") doesn't have a template assigned to it"), s)
  | Some templatePath =>
      let s := log (CallReadFile templatePath) s in
      match ioutil_ReadFile templatePath (world s) with
      | inr err =>
          ("", Some ("rendering error: while reading template " +:+ templatePath
                     +:+ ": " +:+ err), s)
      | inl templateContent => (string_of_list_byte templateContent, None, s)
      end
  end.

Definition renderTemplateToString (templateContent : string) (templateData : TemplateData)
    : string * option error :=
  match template_Parse templateContent with
  | inr err => ("", Some err)
  | inl t =>
      let '(outputBuffer, err) := template_Execute t templateData in
      match err with
      | Some err => ("", Some err)
      | None => (outputBuffer, None)
      end
  end.

(** The loop over the lines of a fenced code block: [i] is the index,
    [todo] the number of iterations left ([l - i]). *)
Fixpoint linesLoop (lines : list Segment) (inputFileBytes : list byte)
    (i todo : nat) (content : string) : string :=
  match todo with
  | O => content
  | S todo' =>
      match lines !! i with
      | Some line =>
          linesLoop lines inputFileBytes (S i) todo'
            (content +:+ string_of_list_byte (Segment_Value line inputFileBytes))
      | None => content
      end
  end.

Definition generateTemplateDataContent (n : Node) (inputFileBytes : list byte) : string :=
  match payload n with
  | Text segment softLineBreak =>
      let content := string_of_list_byte (Segment_Value segment inputFileBytes) in
      if softLineBreak then content +:+ newline
      else content +:+ "<br/>" +:+ newline
  | FencedCodeBlock lines =>
      let l := length lines in
      linesLoop lines inputFileBytes 0 l ""
  | _ => ""
  end.

Definition generateTemplateDataConfig (n : Node) : gmap string GoValue :=
  let config : gmap string GoValue := ∅ in
  match payload n with
  | Heading level => <["level" := VInt level]> config
  | Emphasis level =>
      if level =? 1 then <["tagType" := VString "em"]> config
      else <["tagType" := VString "strong"]> config
  | _ => config
  end.

(** [n.HasChildren()] is [n.FirstChild() != nil], and the results are
    named: a bare [return] gives back [output] and [err] as they stand. *)
Fixpoint renderAstNode (pageMetadata : PageMeta) (n : Node) (inputFileBytes : list byte)
    (s : State) {struct n} : string * option error * State :=
  let '(firstChildContent, err, s) :=
    match FirstChild n with
    | Some child => renderAstNode pageMetadata child inputFileBytes s
    | None => ("", None, s)
    end in
  match err with
  | Some err => ("", Some err, s)
  | None =>
  let '(templateContent, err, s) := getTemplateContent (Kind n) s in
  match err with
  | Some err => ("", Some err, s)
  | None =>
  let templateConfig := generateTemplateDataConfig n in
  let '(output, err) :=
    renderTemplateToString templateContent
      {| Meta := pageMetadata;
         Config := templateConfig;
         Content := generateTemplateDataContent n inputFileBytes;
         Children := firstChildContent |} in
  match err with
  | Some err => (output, Some err, s)
  | None =>
  match NextSibling n with
  | Some sibling =>
      let '(nextSiblingContent, err, s) :=
        renderAstNode pageMetadata sibling inputFileBytes s in
      match err with
      | Some err => ("", Some err, s)
      | None => (output +:+ newline +:+ nextSiblingContent, None, s)
      end
  | None => (output, None, s)
  end end end end.

Definition RenderAst (pageMetadata : gmap string GoValue) (documentNode : Node)
    (inputFileBytes : list byte) (s : State) : option error * State :=
  match pageMetadata !! "title" with
  | None => (Some ("rendering error: page does not contain " +:+ quote +:+ "title"
                   +:+ quote +:+ " in metadata"), s)
  | Some pageTitleInt =>
  let pageTitle := fmt.Sprintf_s pageTitleInt in
  match pageMetadata !! "description" with
  | None => (Some ("rendering error: page does not contain " +:+ quote +:+ "description"
                   +:+ quote +:+ " in metadata"), s)
  | Some pageDescriptionInt =>
  let pageDescription := fmt.Sprintf_s pageDescriptionInt in
  match pageMetadata !! "slug" with
  | None => (Some ("rendering error: page does not contain " +:+ quote +:+ "slug"
                   +:+ quote +:+ " in metadata"), s)
  | Some pageSlugInt =>
  let pageSlug := fmt.Sprintf_s pageSlugInt in
  match pageMetadata !! "path" with
  | None => (Some ("rendering error: page does not contain " +:+ quote +:+ "path"
                   +:+ quote +:+ " in metadata"), s)
  | Some pagePathInt =>
  let pagePath := fmt.Sprintf_s pagePathInt in
  if negb (strings.HasPrefix pagePath "/") then
    (Some ("rendering error: page path doesn't being with a " +:+ quote +:+ "/"
           +:+ quote +:+ " (forward slash)"), s)
  else
  let pageMeta :=
    {| Title := pageTitle;
       Description := pageDescription;
       Slug := pageSlug;
       Path := DocumentTemplatePath |} in
  let '(output, err, s) := renderAstNode pageMeta documentNode inputFileBytes s in
  match err with
  | Some err => (Some err, s)
  | None =>
  let dir := path.Join ["build"; pagePath] in
  let s := log (CallStat dir) s in
  let '(err, s) :=
    if os_IsNotExist (os_Stat dir (world s)) then
      let s := log (CallMkdirAll dir os.ModeDir) s in
      let '(err, w) := os_MkdirAll dir os.ModeDir (world s) in
      (err, {| KindTemplateMap := KindTemplateMap s; world := w; calls := calls s |})
    else (None, s) in
  match err with
  | Some err => (Some err, s)
  | None =>
  let file := path.Join ["build"; pagePath; "/index.html"] in
  let data := list_byte_of_string output in
  let s := log (CallWriteFile file data os.ModeAppend) s in
  let '(err, w) := ioutil_WriteFile file data os.ModeAppend (world s) in
  (err, {| KindTemplateMap := KindTemplateMap s; world := w; calls := calls s |})
  end end end end end end.

(** *** Vocabulary of the properties *)

(** The map [getTemplateContent] looks a kind up in: [KindTemplateMap]
    after the lazy initialisation. *)
Definition registry (s : State) : gmap NodeKind string :=
  KindTemplateMap (if (size (KindTemplateMap s) =? 0)%nat then InitKindTemplateMap s else s).

Definition errNoTemplate (nodeKind : NodeKind) : error :=
  "rendering error: node kind (" +:+ NodeKind_String nodeKind
  +:+ ") doesn't have a template assigned to it".

Definition errMissingField (key : string) : error :=
  "rendering error: page does not contain " +:+ quote +:+ key +:+ quote +:+ " in metadata".

Definition errPathPrefix : error :=
  "rendering error: page path doesn't being with a " +:+ quote +:+ "/"
  +:+ quote +:+ " (forward slash)".

Definition requiredKeys : list string := ["title"; "description"; "slug"; "path"].

Definition missing (pageMetadata : gmap string GoValue) (key : string) : bool :=
  match pageMetadata !! key with Some _ => false | None => true end.

(** The fragment of [n] itself: its template instantiated with its
    configuration, its content and its rendered children, that is
    [renderAstNode] up to the point where it turns to the next sibling. *)
Definition renderOwn (pageMetadata : PageMeta) (n : Node) (inputFileBytes : list byte)
    (s : State) : string * option error * State :=
  let '(firstChildContent, err, s) :=
    match FirstChild n with
    | Some child => renderAstNode pageMetadata child inputFileBytes s
    | None => ("", None, s)
    end in
  match err with
  | Some err => ("", Some err, s)
  | None =>
  let '(templateContent, err, s) := getTemplateContent (Kind n) s in
  match err with
  | Some err => ("", Some err, s)
  | None =>
  let '(output, err) :=
    renderTemplateToString templateContent
      {| Meta := pageMetadata;
         Config := generateTemplateDataConfig n;
         Content := generateTemplateDataContent n inputFileBytes;
         Children := firstChildContent |} in
  (output, err, s)
  end end.

(** The nodes of the tree at [n] in the order in which the renderer
    resolves and instantiates their templates: the children of a node
    before the node, the node before its next siblings. *)
Fixpoint visit (n : Node) : list Node :=
  match FirstChild n with Some child => visit child | None => [] end
  ++ n :: match NextSibling n with Some sibling => visit sibling | None => [] end.

Definition isRead (c : Call) : bool :=
  match c with CallReadFile _ => true | _ => false end.

(** Lines 124 to 135 of [RenderAst]: what it does with the rendered
    page. *)
Definition writeOutput (pagePath output : string) (s : State) : option error * State :=
  let dir := path.Join ["build"; pagePath] in
  let s := log (CallStat dir) s in
  let '(err, s) :=
    if os_IsNotExist (os_Stat dir (world s)) then
      let s := log (CallMkdirAll dir os.ModeDir) s in
      let '(err, w) := os_MkdirAll dir os.ModeDir (world s) in
      (err, {| KindTemplateMap := KindTemplateMap s; world := w; calls := calls s |})
    else (None, s) in
  match err with
  | Some err => (Some err, s)
  | None =>
  let file := path.Join ["build"; pagePath; "/index.html"] in
  let data := list_byte_of_string output in
  let s := log (CallWriteFile file data os.ModeAppend) s in
  let '(err, w) := ioutil_WriteFile file data os.ModeAppend (world s) in
  (err, {| KindTemplateMap := KindTemplateMap s; world := w; calls := calls s |})
  end.

(** [s'] is [s] after some more template files were read: the same
    registry, the same host, a longer log. *)
Definition extends (s s' : State) : Prop :=
  registry s' = registry s /\ world s' = world s
  /\ exists reads, calls s' = calls s ++ reads /\ forallb isRead reads = true.

(** Two states in which the renderer computes the same page. *)
Definition same_host (s1 s2 : State) : Prop :=
  registry s1 = registry s2 /\ world s1 = world s2.

(** The error of the step of [n] itself, if any: its template is not
    registered or cannot be read, parsed or executed on the data of [n]
    (with the output of its children as [Children]). *)
Definition ownError (pageMetadata : PageMeta) (inputFileBytes : list byte) (s : State)
    (n : Node) : option error :=
  let firstChildContent :=
    match FirstChild n with
    | Some child => (renderAstNode pageMetadata child inputFileBytes s).1.1
    | None => ""
    end in
  let '(templateContent, err, _) := getTemplateContent (Kind n) s in
  match err with
  | Some err => Some err
  | None =>
      (renderTemplateToString templateContent
         {| Meta := pageMetadata;
            Config := generateTemplateDataConfig n;
            Content := generateTemplateDataContent n inputFileBytes;
            Children := firstChildContent |}).2
  end.

Definition fails (pageMetadata : PageMeta) (inputFileBytes : list byte) (s : State)
    (n : Node) : bool :=
  match ownError pageMetadata inputFileBytes s n with Some _ => true | None => false end.

(** The kinds of goldmark's core, as opposed to those of extensions. *)
Definition isCore (nodeKind : NodeKind) : bool :=
  match nodeKind with KindExtension _ => false | _ => true end.

(** The call that reads the template of [n]. *)
Definition templateRead (s : State) (n : Node) : Call :=
  CallReadFile (default "" (registry s !! Kind n)).

End Renderer.

(** *** Package [parser] ([parser/parse.go])

    It is placed here because it runs on the same host: [ParseFile] reads
    its file through [ioutil.ReadFile] and produces the tree, the metadata
    and the buffer that [RenderAst] takes. *)
Module parser.

(** What the package takes from goldmark: the parser that [NewParser]
    configures (GFM and meta extensions, automatic heading ids), which
    fills a fresh [parser.Context] while it builds the document, and
    [meta.TryGet], which reads the front matter back from that context
    (a [nil] map when there is none). *)
Class ParserExternals `{Externals} : Type := {
  ParserContext : Type;
  goldmark_Parse : list byte -> ast.Node Segment * ParserContext;
  meta_TryGet : ParserContext -> option (gmap string GoValue) * option error
}.

Section Parser.
Context `{pext : ParserExternals}.

Abbreviation Node := (ast.Node Segment).

Record Parser : Type := { md : list byte -> Node * ParserContext }.

Definition NewParser : Parser := {| md := goldmark_Parse |}.

(** The four results of [ParseFile]; [None] is [nil]. *)
Definition ParseResult : Type :=
  option (gmap string GoValue) * option Node * option (list byte) * option error.

Definition ParseFile (p : Parser) (filepath : string) (s : State) : ParseResult * State :=
  if negb (strings.HasSuffix filepath ".md") then
    ((None, None, None,
      Some "parsing error: input file must be a markdown file with the '.md' extension"), s)
  else
  let s := log (CallReadFile filepath) s in
  match ioutil_ReadFile filepath (world s) with
  | inr err => ((None, None, None, Some ("parsing error: " +:+ err)), s)
  | inl mdFileContent =>
      let '(documentNode, metaContext) := md p mdFileContent in
      let '(metadata, err) := meta_TryGet metaContext in
      match err with
      | Some err =>
          ((None, None, None, Some ("parsing error: error getting metadata: " +:+ err)), s)
      | None => ((metadata, Some documentNode, Some mdFileContent, None), s)
      end
  end.

Definition errExtension : error :=
  "parsing error: input file must be a markdown file with the '.md' extension".

End Parser.
End parser.

(** *** A small host to run the renderer on

    Segments are index pairs into the buffer, the file system is a finite
    map from names to contents, and the template engine wraps the content
    and the children of a node in the text of its template. *)
Module demo.

Record SliceSegment : Type := { Start : nat; Stop : nat }.

Definition sliceValue (seg : SliceSegment) (buffer : list byte) : list byte :=
  take (Stop seg - Start seg)%nat (drop (Start seg) buffer).

Record MemWorld : Type := {
  files : gmap string (list byte);
  dirs : gset string
}.

Definition readFile (name : string) (w : MemWorld) : list byte + error :=
  match files w !! name with
  | Some data => inl data
  | None => inr ("open " +:+ name +:+ ": no such file or directory")
  end.

Definition stat (name : string) (w : MemWorld) : option error :=
  if decide (name ∈ dirs w) then None
  else match files w !! name with
       | Some _ => None
       | None => Some ("stat " +:+ name +:+ ": no such file or directory")
       end.

Definition isNotExist (err : option error) : bool :=
  match err with Some _ => true | None => false end.

Definition mkdirAll (name : string) (perm : Z) (w : MemWorld) : option error * MemWorld :=
  (None, {| files := files w; dirs := {[name]} ∪ dirs w |}).

Definition writeFile (name : string) (data : list byte) (perm : Z) (w : MemWorld)
    : option error * MemWorld :=
  (None, {| files := <[name := data]> (files w); dirs := dirs w |}).

(** The engine: the template text as a tag around the content and the
    children; the template ["html"] also prints the title of the page. *)
Definition execute (t : string) (d : TemplateData) : string * option error :=
  ("<" +:+ t +:+ ">"
   +:+ (if String.eqb t "html" then "<title>" +:+ Title (Meta d) +:+ "</title>" else "")
   +:+ Content d +:+ Children d +:+ "</" +:+ t +:+ ">", None).

#[export] Instance host : Externals := {|
  Segment := SliceSegment;
  Segment_Value := sliceValue;
  Template := string;
  template_Parse := inl;
  template_Execute := execute;
  runtime_Caller := Some "/blog/renderer/renderer.go";
  World := MemWorld;
  ioutil_ReadFile := readFile;
  os_Stat := stat;
  os_IsNotExist := isNotExist;
  os_MkdirAll := mkdirAll;
  ioutil_WriteFile := writeFile
|}.

(** A template file for each of the nineteen kinds of the registry. *)
Definition templateStore : gmap string (list byte) :=
  list_to_map
    (map (fun '(templatePath, text) =>
            (path.Join ["/blog/renderer"; templatePath], list_byte_of_string text))
       [(DocumentTemplatePath, "html"); (TextBlockTemplatePath, "div");
        (ParagraphTemplatePath, "p"); (HeadingTemplatePath, "h");
        (ThematicBreakTemplatePath, "hr"); (CodeBlockTemplatePath, "pre");
        (FencedCodeBlockTemplatePath, "code"); (BlockquoteTemplatePath, "blockquote");
        (ListTemplatePath, "ul"); (ListItemTemplatePath, "li");
        (HTMLBlockTemplatePath, "raw"); (TextTemplatePath, "span");
        (StringTemplatePath, "str"); (CodeSpanTemplatePath, "tt");
        (EmphasisTemplatePath, "em"); (LinkTemplatePath, "a");
        (ImageTemplatePath, "img"); (AutoLinkTemplatePath, "url");
        (RawHTMLTemplatePath, "inline")]).

(** The same store with the file of the paragraph template missing. *)
Definition withoutParagraphTemplate : gmap string (list byte) :=
  delete (path.Join ["/blog/renderer"; ParagraphTemplatePath]) templateStore.

(** The state of a fresh process: no template map yet, no call made. *)
Definition start (fs : gmap string (list byte)) : State :=
  {| KindTemplateMap := ∅; world := {| files := fs; dirs := ∅ |}; calls := [] |}.

Definition leaf (p : Payload SliceSegment) : ast.Node (@Segment host) := mkNode p None None.

Definition meta : PageMeta :=
  {| Title := "T"; Description := "D"; Slug := "s"; Path := DocumentTemplatePath |}.

Definition source : list byte := list_byte_of_string "hello world".

Definition secondParagraph : ast.Node (@Segment host) :=
  mkNode Paragraph (Some (leaf (Text {| Start := 6; Stop := 11 |} false))) None.

(** Two paragraphs of one text each, the first with the second as its
    next sibling. *)
Definition paragraphs : ast.Node (@Segment host) :=
  mkNode Paragraph (Some (leaf (Text {| Start := 0; Stop := 5 |} true)))
    (Some secondParagraph).

Definition twoParagraphs : ast.Node (@Segment host) :=
  mkNode Document (Some paragraphs) None.

(** A table of the GFM extension, for which there is no template. *)
Definition table : ast.Node (@Segment host) := leaf (Extension "Table").

Definition paragraphThenTable : ast.Node (@Segment host) :=
  mkNode Paragraph None (Some table).

Definition codeSource : list byte :=
  list_byte_of_string ("foo" +:+ newline +:+ "bar" +:+ newline).

Definition pageMetadata : gmap string GoValue :=
  <["title" := VString "Home"]>
  (<["description" := VString "The home page"]>
  (<["slug" := VString "home"]>
  (<["path" := VString "/about"]> ∅))).

(** The same front matter with a number for a title. *)
Definition numericTitle : gmap string GoValue := <["title" := VInt 5]> pageMetadata.

Definition withoutSlug : gmap string GoValue := delete "slug" pageMetadata.

Definition withoutTitleAndSlug : gmap string GoValue := delete "title" withoutSlug.

Definition homeMeta : PageMeta :=
  {| Title := "Home"; Description := "The home page"; Slug := "home";
     Path := DocumentTemplatePath |}.

(** The same front matter with a key the renderer does not know. *)
Definition withTags : gmap string GoValue := <["tags" := VString "go"]> pageMetadata.

(** A parser for the demo: the document is one paragraph with the whole
    buffer as its text, and the front matter is that of the demo page
    unless the buffer starts with an exclamation mark. *)
Definition parseBytes (buffer : list byte) : ast.Node (@Segment host) * list byte :=
  (mkNode Document
     (Some (mkNode Paragraph
              (Some (leaf (Text {| Start := 0; Stop := length buffer |} true))) None))
     None, buffer).

Definition tryGet (buffer : list byte) : option (gmap string GoValue) * option error :=
  match buffer with
  | "!"%byte :: _ => (None, Some "yaml: did not find expected key")
  | _ => (Some pageMetadata, None)
  end.

#[export] Instance parserHost : parser.ParserExternals := {|
  parser.ParserContext := list byte;
  parser.goldmark_Parse := parseBytes;
  parser.meta_TryGet := tryGet
|}.

Definition mdParser : parser.Parser := parser.NewParser.

(** The template store with one markdown file. *)
Definition withPost : gmap string (list byte) :=
  <["posts/hello.md" := source]> templateStore.

End demo.

(** *** A host that honours permission bits

    The file system as an unprivileged process on Unix sees it, as far as
    the renderer uses it.  Every directory and file carries the
    permission bits it was created with (the umask, which only takes bits
    away, is left out); a name is reached through directories that grant
    search; an entry is created in a directory that grants write and
    search; an existing file is opened for writing when it grants write.
    The working directory and the root are always there; the working
    directory grants everything. *)
Module unix.

Inductive Entry : Type :=
  | Directory (perm : Z)
  | RegularFile (perm : Z) (data : list byte).

Abbreviation FileSystem := (gmap string Entry).

Inductive Errno : Type := EACCES | EEXIST | EISDIR | ENOENT | ENOTDIR.

Definition Errno_Error (e : Errno) : string :=
  match e with
  | EACCES => "permission denied"
  | EEXIST => "file exists"
  | EISDIR => "is a directory"
  | ENOENT => "no such file or directory"
  | ENOTDIR => "not a directory"
  end.

(** [os.PathError.Error] *)
Definition PathError (op name : string) (e : Errno) : error :=
  op +:+ " " +:+ name +:+ ": " +:+ Errno_Error e.

(** The bits [0400], [0200] and [0100] of the owner. *)
Definition ownerRead (perm : Z) : bool := Z.testbit perm 8.
Definition ownerWrite (perm : Z) : bool := Z.testbit perm 7.
Definition ownerSearch (perm : Z) : bool := Z.testbit perm 6.

Definition isStart (name : string) : bool := String.eqb name "." || String.eqb name "/".

(** The directories a name is reached through, the outermost first. *)
Fixpoint ancestorsUpTo (fuel : nat) (name : string) : list string :=
  match fuel with
  | O => []
  | S fuel =>
      let d := path.Dir name in
      if isStart d then [] else ancestorsUpTo fuel d ++ [d]
  end.

Definition ancestors (name : string) : list string :=
  ancestorsUpTo (String.length name) name.

Fixpoint walk (fs : FileSystem) (dirs : list string) : option Errno :=
  match dirs with
  | [] => None
  | d :: rest =>
      match fs !! d with
      | None => Some ENOENT
      | Some (RegularFile _ _) => Some ENOTDIR
      | Some (Directory perm) => if ownerSearch perm then walk fs rest else Some EACCES
      end
  end.

(** What stops the process on its way to [name], if anything. *)
Definition reach (fs : FileSystem) (name : string) : option Errno :=
  walk fs (ancestors name).

(** Whether an entry can be created at [name]. *)
Definition parentGrantsWrite (fs : FileSystem) (name : string) : bool :=
  let d := path.Dir name in
  if String.eqb d "." then true
  else match fs !! d with
       | Some (Directory perm) => ownerWrite perm && ownerSearch perm
       | _ => false
       end.

Definition isDir (fs : FileSystem) (name : string) : bool :=
  isStart name
  || match reach fs name, fs !! name with
     | None, Some (Directory _) => true
     | _, _ => false
     end.

Definition readFile (name : string) (fs : FileSystem) : list byte + error :=
  match reach fs name with
  | Some e => inr (PathError "open" name e)
  | None =>
      match fs !! name with
      | None => inr (PathError "open" name ENOENT)
      | Some (Directory _) => inr (PathError "read" name EISDIR)
      | Some (RegularFile perm data) =>
          if ownerRead perm then inl data else inr (PathError "open" name EACCES)
      end
  end.

Definition stat (name : string) (fs : FileSystem) : option error :=
  if isStart name then None
  else match reach fs name with
       | Some e => Some (PathError "stat" name e)
       | None =>
           match fs !! name with
           | Some _ => None
           | None => Some (PathError "stat" name ENOENT)
           end
       end.

Definition isNotExist (err : option error) : bool :=
  match err with
  | Some err => strings.HasSuffix err (": " +:+ Errno_Error ENOENT)
  | None => false
  end.

(** [os.Mkdir]: one directory, with the permission bits of [perm]. *)
Definition mkdir (name : string) (perm : Z) (fs : FileSystem) : option error * FileSystem :=
  match reach fs name with
  | Some e => (Some (PathError "mkdir" name e), fs)
  | None =>
      match fs !! name with
      | Some _ => (Some (PathError "mkdir" name EEXIST), fs)
      | None =>
          if isStart name then (Some (PathError "mkdir" name EEXIST), fs)
          else if parentGrantsWrite fs name then
            (None, <[name := Directory (os.Perm perm)]> fs)
          else (Some (PathError "mkdir" name EACCES), fs)
      end
  end.

(** [os.MkdirAll]: nothing to do for a directory that is there; otherwise
    the parent first, then [name] itself. *)
Fixpoint mkdirAllUpTo (fuel : nat) (name : string) (perm : Z) (fs : FileSystem)
    : option error * FileSystem :=
  if isDir fs name then (None, fs)
  else match reach fs name, fs !! name with
  | None, Some (RegularFile _ _) => (Some (PathError "mkdir" name ENOTDIR), fs)
  | _, _ =>
      let '(err, fs) :=
        match fuel with
        | O => (None, fs)
        | S fuel =>
            if isStart (path.Dir name) then (None, fs)
            else mkdirAllUpTo fuel (path.Dir name) perm fs
        end in
      match err with
      | Some err => (Some err, fs)
      | None =>
          let '(err, fs) := mkdir name perm fs in
          match err with
          | Some err => if isDir fs name then (None, fs) else (Some err, fs)
          | None => (None, fs)
          end
      end
  end.

Definition mkdirAll (name : string) (perm : Z) (fs : FileSystem)
    : option error * FileSystem :=
  mkdirAllUpTo (String.length name) name perm fs.

(** [ioutil.WriteFile]: the file is opened for writing, created with the
    permission bits of [perm] when it is not there, and truncated. *)
Definition writeFile (name : string) (data : list byte) (perm : Z) (fs : FileSystem)
    : option error * FileSystem :=
  match reach fs name with
  | Some e => (Some (PathError "open" name e), fs)
  | None =>
      match fs !! name with
      | Some (Directory _) => (Some (PathError "open" name EISDIR), fs)
      | Some (RegularFile mode _) =>
          if ownerWrite mode then (None, <[name := RegularFile mode data]> fs)
          else (Some (PathError "open" name EACCES), fs)
      | None =>
          if isStart name then (Some (PathError "open" name EISDIR), fs)
          else if parentGrantsWrite fs name then
            (None, <[name := RegularFile (os.Perm perm) data]> fs)
          else (Some (PathError "open" name EACCES), fs)
      end
  end.

#[export] Instance host : Externals := {|
  Segment := demo.SliceSegment;
  Segment_Value := demo.sliceValue;
  Template := string;
  template_Parse := inl;
  template_Execute := demo.execute;
  runtime_Caller := Some "/blog/renderer/renderer.go";
  World := FileSystem;
  ioutil_ReadFile := readFile;
  os_Stat := stat;
  os_IsNotExist := isNotExist;
  os_MkdirAll := mkdirAll;
  ioutil_WriteFile := writeFile
|}.

(** The project: the template files of the demo with mode [0644], in
    directories with mode [0755]. *)
Definition project : FileSystem :=
  list_to_map
    (map (fun d => (d, Directory 493))
       ["/blog"; "/blog/renderer"; "/blog/templates"; "/blog/templates/block";
        "/blog/templates/inline"])
  ∪ (RegularFile 420 <$> demo.templateStore).

(** A fresh process in a working directory without [build]. *)
Definition start : State :=
  {| KindTemplateMap := ∅; world := project; calls := [] |}.

(** The same with [build/about] made beforehand, with mode [0755]. *)
Definition startWithDirectory : State :=
  {| KindTemplateMap := ∅;
     world := <["build/about" := Directory 493]> (<["build" := Directory 493]> project);
     calls := [] |}.

End unix.


(** ** Properties *)

Section ContentAndConfig.
Context {ext : Externals}.

Abbreviation Node := (ast.Node Segment).

Lemma string_app_nil_r (x : string) : x +:+ "" = x.
Proof.
  induction x as [|c x IH]; [reflexivity|].
  change (String c (x +:+ "") = String c x). now rewrite IH.
Qed.

Lemma string_app_assoc (x y z : string) : (x +:+ y) +:+ z = x +:+ (y +:+ z).
Proof.
  induction x as [|c x IH]; [reflexivity|].
  change (String c ((x +:+ y) +:+ z) = String c (x +:+ (y +:+ z))). now rewrite IH.
Qed.

Lemma concat_empty_cons (x : string) (xs : list string) :
  String.concat "" (x :: xs) = x +:+ String.concat "" xs.
Proof. destruct xs; simpl; [now rewrite string_app_nil_r | reflexivity]. Qed.

Lemma linesLoop_spec (lines : list Segment) (inputFileBytes : list byte) :
  forall todo i content,
    (i + todo = length lines)%nat ->
    linesLoop lines inputFileBytes i todo content =
      content +:+ String.concat ""
        (map (fun line => string_of_list_byte (Segment_Value line inputFileBytes))
             (drop i lines)).
Proof.
  induction todo as [|todo IH]; intros i content Hlen; simpl.
  - rewrite drop_ge by lia. simpl. now rewrite string_app_nil_r.
  - destruct (lines !! i) as [line|] eqn:Hi.
    + rewrite IH by lia. rewrite string_app_assoc.
      rewrite (drop_S lines line i Hi), map_cons, concat_empty_cons.
      reflexivity.
    + apply lookup_ge_None in Hi. lia.
Qed.

(** C2. The content of a plain-text node is the bytes its segment
    refers to in the source buffer, followed by a newline when the
    soft-line-break flag is set and by ["<br/>"] and a newline when it is
    not; bytes ["hello"] give ["hello\n"] and ["hello<br/>\n"]. *)
Theorem C2_text_content :
  (forall (segment : Segment) (softLineBreak : bool) fc ns (inputFileBytes : list byte),
      generateTemplateDataContent (mkNode (Text segment softLineBreak) fc ns) inputFileBytes =
        string_of_list_byte (Segment_Value segment inputFileBytes)
        +:+ (if softLineBreak then newline else "<br/>" +:+ newline))
  /\ (forall (segment : Segment) fc ns (inputFileBytes : list byte),
      Segment_Value segment inputFileBytes = list_byte_of_string "hello" ->
      generateTemplateDataContent (mkNode (Text segment true) fc ns) inputFileBytes =
        "hello" +:+ newline
      /\ generateTemplateDataContent (mkNode (Text segment false) fc ns) inputFileBytes =
        "hello<br/>" +:+ newline).
Proof.
  split.
  - intros segment [] fc ns inputFileBytes; reflexivity.
  - intros segment fc ns inputFileBytes Hv.
    unfold generateTemplateDataContent; simpl. rewrite Hv. split; reflexivity.
Qed.

(** C3. The content of a fenced code block is the concatenation, in the
    recorded order, of the bytes of its lines, with nothing between them;
    lines ["foo\n"] and ["bar\n"] give ["foo\nbar\n"]. *)
Theorem C3_fenced_code_content :
  (forall (lines : list Segment) fc ns (inputFileBytes : list byte),
      generateTemplateDataContent (mkNode (FencedCodeBlock lines) fc ns) inputFileBytes =
        String.concat ""
          (map (fun line => string_of_list_byte (Segment_Value line inputFileBytes)) lines))
  /\ (forall (l1 l2 : Segment) fc ns (inputFileBytes : list byte),
      Segment_Value l1 inputFileBytes = list_byte_of_string ("foo" +:+ newline) ->
      Segment_Value l2 inputFileBytes = list_byte_of_string ("bar" +:+ newline) ->
      generateTemplateDataContent (mkNode (FencedCodeBlock [l1; l2]) fc ns) inputFileBytes =
        "foo" +:+ newline +:+ "bar" +:+ newline).
Proof.
  assert (H : forall (lines : list Segment) fc ns (inputFileBytes : list byte),
      generateTemplateDataContent (mkNode (FencedCodeBlock lines) fc ns) inputFileBytes =
        String.concat ""
          (map (fun line => string_of_list_byte (Segment_Value line inputFileBytes)) lines)).
  { intros lines fc ns inputFileBytes. unfold generateTemplateDataContent; simpl.
    rewrite linesLoop_spec by lia. reflexivity. }
  split; [exact H|].
  intros l1 l2 fc ns inputFileBytes H1 H2. rewrite H. simpl. rewrite H1, H2. reflexivity.
Qed.

(** C4. The configuration of a heading is the map with the one entry
    ["level"], the level of the node; that of an emphasis is the map with
    the one entry ["tagType"], ["em"] when the level is 1 and ["strong"]
    otherwise; that of every other node is the empty map.  The
    extractor has no failure path. *)
Theorem C4_config :
  (forall level fc ns,
      generateTemplateDataConfig (mkNode (Heading level) fc ns) = {["level" := VInt level]}
      /\ generateTemplateDataConfig (mkNode (Heading level) fc ns) !! "level"
         = Some (VInt level))
  /\ (forall level fc ns,
      generateTemplateDataConfig (mkNode (Emphasis level) fc ns) =
        {["tagType" := VString (if level =? 1 then "em" else "strong")]}
      /\ generateTemplateDataConfig (mkNode (Emphasis level) fc ns) !! "tagType"
         = Some (VString (if level =? 1 then "em" else "strong")))
  /\ (forall n : Node,
      Kind n <> KindHeading -> Kind n <> KindEmphasis ->
      generateTemplateDataConfig n = ∅).
Proof.
  split; [|split].
  - intros level fc ns. unfold generateTemplateDataConfig; simpl.
    split; [reflexivity | apply lookup_insert_eq].
  - intros level fc ns. unfold generateTemplateDataConfig; simpl.
    destruct (level =? 1); (split; [reflexivity | apply lookup_insert_eq]).
  - intros [p fc ns] Hh He. unfold generateTemplateDataConfig, Kind in *; simpl in *.
    destruct p; try reflexivity; congruence.
Qed.

(** C8. The content extractor returns the empty string for every node
    that is neither a plain text nor a fenced code block, whatever the
    source buffer; it has no failure path. *)
Theorem C8_other_kinds_empty_content (n : Node) (inputFileBytes : list byte) :
  Kind n <> KindText -> Kind n <> KindFencedCodeBlock ->
  generateTemplateDataContent n inputFileBytes = "".
Proof.
  destruct n as [p fc ns]. unfold generateTemplateDataContent, Kind; simpl.
  destruct p; try reflexivity; congruence.
Qed.

End ContentAndConfig.

(** *** The recursive renderer *)

Section Rendering.
Context {ext : Externals}.

Abbreviation Node := (ast.Node Segment).

Lemma extends_refl s : extends s s.
Proof. repeat split. exists []. now rewrite app_nil_r. Qed.

Lemma extends_trans s1 s2 s3 : extends s1 s2 -> extends s2 s3 -> extends s1 s3.
Proof.
  intros (R1 & W1 & r1 & C1 & F1) (R2 & W2 & r2 & C2 & F2).
  repeat split; [congruence | congruence |].
  exists (r1 ++ r2). rewrite C2, C1, <- app_assoc. split; [reflexivity|].
  rewrite forallb_app, F1, F2. reflexivity.
Qed.

Lemma extends_same_host s s' : extends s s' -> same_host s s'.
Proof. intros (R & W & _). split; congruence. Qed.

Lemma same_host_step s1 s2 s1' s2' :
  same_host s1 s2 -> extends s1 s1' -> extends s2 s2' -> same_host s1' s2'.
Proof. intros [R W] (R1 & W1 & _) (R2 & W2 & _). split; congruence. Qed.

Lemma InitKindTemplateMap_nonempty s :
  (size (KindTemplateMap (InitKindTemplateMap s)) =? 0)%nat = false.
Proof.
  apply Nat.eqb_neq. intros H. apply map_size_empty_iff in H.
  revert H. unfold InitKindTemplateMap; simpl. apply insert_non_empty.
Qed.

Lemma registry_nonempty s : (size (registry s) =? 0)%nat = false.
Proof.
  unfold registry. destruct (size (KindTemplateMap s) =? 0)%nat eqn:E; [|exact E].
  apply InitKindTemplateMap_nonempty.
Qed.

Lemma registry_fixed s s' : KindTemplateMap s' = registry s -> registry s' = registry s.
Proof.
  intros H. unfold registry at 1. rewrite H, registry_nonempty. exact H.
Qed.

(** No kind of an extension is in the map that [InitKindTemplateMap]
    builds, so none has a template in a fresh process. *)
Lemma InitKindTemplateMap_extension (s : State) name :
  KindTemplateMap (InitKindTemplateMap s) !! KindExtension name = None.
Proof.
  unfold InitKindTemplateMap. simpl.
  rewrite !lookup_insert_ne by discriminate. apply lookup_empty.
Qed.

Lemma registry_extension (s : State) name :
  KindTemplateMap s = ∅ -> registry s !! KindExtension name = None.
Proof.
  intros E. unfold registry. rewrite E, map_size_empty. cbn [Nat.eqb].
  apply InitKindTemplateMap_extension.
Qed.

Lemma initialised_frame s :
  let s0 := if (size (KindTemplateMap s) =? 0)%nat then InitKindTemplateMap s else s in
  KindTemplateMap s0 = registry s /\ world s0 = world s /\ calls s0 = calls s.
Proof. unfold registry. destruct (size (KindTemplateMap s) =? 0)%nat; repeat split. Qed.

(** What [getTemplateContent] returns, in terms of the registry. *)
Lemma getTemplateContent_spec nodeKind s :
  exists s0, KindTemplateMap s0 = registry s /\ world s0 = world s /\ calls s0 = calls s /\
  getTemplateContent nodeKind s =
    match registry s !! nodeKind with
    | None => ("", Some (errNoTemplate nodeKind), s0)
    | Some templatePath =>
        match ioutil_ReadFile templatePath (world s) with
        | inr err =>
            ("", Some ("rendering error: while reading template " +:+ templatePath
                       +:+ ": " +:+ err), log (CallReadFile templatePath) s0)
        | inl templateContent =>
            (string_of_list_byte templateContent, None, log (CallReadFile templatePath) s0)
        end
    end.
Proof.
  destruct (initialised_frame s) as (K & W & C).
  eexists; split; [exact K|]. split; [exact W|]. split; [exact C|].
  unfold getTemplateContent. cbv zeta. rewrite K.
  destruct (registry s !! nodeKind) as [templatePath|]; [|reflexivity].
  simpl. rewrite W. reflexivity.
Qed.

Lemma getTemplateContent_extends nodeKind s :
  extends s (getTemplateContent nodeKind s).2.
Proof.
  destruct (getTemplateContent_spec nodeKind s) as (s0 & K & W & C & ->).
  assert (E0 : extends s s0).
  { repeat split; [now apply registry_fixed | exact W |].
    exists []. now rewrite app_nil_r. }
  assert (E1 : forall name, extends s (log (CallReadFile name) s0)).
  { intros name. repeat split; simpl.
    - now apply registry_fixed.
    - exact W.
    - exists [CallReadFile name]. now rewrite C. }
  destruct (registry s !! nodeKind) as [templatePath|]; [|exact E0].
  destruct (ioutil_ReadFile templatePath (world s)); apply E1.
Qed.

Lemma getTemplateContent_stable nodeKind s1 s2 :
  same_host s1 s2 ->
  (getTemplateContent nodeKind s1).1 = (getTemplateContent nodeKind s2).1.
Proof.
  intros [R W].
  destruct (getTemplateContent_spec nodeKind s1) as (a & _ & _ & _ & ->).
  destruct (getTemplateContent_spec nodeKind s2) as (b & _ & _ & _ & ->).
  rewrite R, W.
  destruct (registry s2 !! nodeKind) as [templatePath|]; [|reflexivity].
  destruct (ioutil_ReadFile templatePath (world s2)); reflexivity.
Qed.

Lemma getTemplateContent_error nodeKind s templateContent err s' :
  getTemplateContent nodeKind s = (templateContent, Some err, s') -> templateContent = "".
Proof.
  destruct (getTemplateContent_spec nodeKind s) as (s0 & _ & _ & _ & ->).
  destruct (registry s !! nodeKind) as [templatePath|]; [|congruence].
  destruct (ioutil_ReadFile templatePath (world s)); congruence.
Qed.

Lemma renderTemplateToString_error templateContent templateData output err :
  renderTemplateToString templateContent templateData = (output, Some err) -> output = "".
Proof.
  unfold renderTemplateToString.
  destruct (template_Parse templateContent) as [t|e]; [|congruence].
  destruct (template_Execute t templateData) as [buf [e|]]; congruence.
Qed.

(** [renderAstNode] renders the node itself and then, when there is a
    next sibling, the chain that starts there, and joins the two. *)
Lemma renderAstNode_eq pageMetadata (n : Node) inputFileBytes s :
  renderAstNode pageMetadata n inputFileBytes s =
    let '(output, err, s1) := renderOwn pageMetadata n inputFileBytes s in
    match err with
    | Some err => (output, Some err, s1)
    | None =>
        match NextSibling n with
        | Some sibling =>
            let '(nextSiblingContent, err, s2) :=
              renderAstNode pageMetadata sibling inputFileBytes s1 in
            match err with
            | Some err => ("", Some err, s2)
            | None => (output +:+ newline +:+ nextSiblingContent, None, s2)
            end
        | None => (output, None, s1)
        end
    end.
Proof.
  destruct n as [p fc ns]. unfold renderOwn. simpl.
  destruct (match fc with
            | Some child => renderAstNode pageMetadata child inputFileBytes s
            | None => ("", None, s)
            end) as [[firstChildContent [e|]] s1]; [reflexivity|].
  destruct (getTemplateContent _ s1) as [[templateContent [e|]] s2]; [reflexivity|].
  destruct (renderTemplateToString _ _) as [output [e|]]; reflexivity.
Qed.

Lemma renderOwn_error pageMetadata (n : Node) inputFileBytes s output err s' :
  renderOwn pageMetadata n inputFileBytes s = (output, Some err, s') -> output = "".
Proof.
  unfold renderOwn.
  destruct (match FirstChild n with
            | Some child => renderAstNode pageMetadata child inputFileBytes s
            | None => ("", None, s)
            end) as [[firstChildContent [e|]] s1]; [congruence|].
  destruct (getTemplateContent _ s1) as [[templateContent [e|]] s2]; [congruence|].
  destruct (renderTemplateToString _ _) as [out [e|]] eqn:E; [|congruence].
  intros [= <- _ _]. eapply renderTemplateToString_error, E.
Qed.

(** Rendering reads template files and does nothing else to the state. *)
Lemma renderAstNode_extends pageMetadata inputFileBytes (n : Node) :
  forall s, extends s (renderAstNode pageMetadata n inputFileBytes s).2.
Proof.
  induction n as [p fc ns IHc IHs] using Node_links_ind. intros s. simpl.
  assert (Hc : extends s
            (match fc with
             | Some child => renderAstNode pageMetadata child inputFileBytes s
             | None => ("", None, s)
             end).2).
  { destruct fc as [c|]; [now apply IHc | apply extends_refl]. }
  destruct (match fc with
            | Some child => renderAstNode pageMetadata child inputFileBytes s
            | None => ("", None, s)
            end) as [[firstChildContent [e|]] s1]; [exact Hc|].
  pose proof (getTemplateContent_extends (Kind (mkNode p fc ns)) s1) as Hg.
  destruct (getTemplateContent _ s1) as [[templateContent [e|]] s2];
    [exact (extends_trans _ _ _ Hc Hg)|].
  pose proof (extends_trans _ _ _ Hc Hg) as H2. simpl in H2.
  destruct (renderTemplateToString _ _) as [output [e|]]; [exact H2|].
  destruct ns as [b|]; [|exact H2].
  pose proof (IHs b eq_refl s2) as Hb.
  destruct (renderAstNode pageMetadata b inputFileBytes s2) as [[next [e|]] s3];
    exact (extends_trans _ _ _ H2 Hb).
Qed.

(** What is rendered depends on the registry and on the host only. *)
Lemma renderAstNode_stable pageMetadata inputFileBytes (n : Node) :
  forall s1 s2, same_host s1 s2 ->
    (renderAstNode pageMetadata n inputFileBytes s1).1 =
    (renderAstNode pageMetadata n inputFileBytes s2).1.
Proof.
  induction n as [p fc ns IHc IHs] using Node_links_ind. intros s1 s2 H. simpl.
  assert (Hc : (match fc with
                | Some child => renderAstNode pageMetadata child inputFileBytes s1
                | None => ("", None, s1)
                end).1 =
               (match fc with
                | Some child => renderAstNode pageMetadata child inputFileBytes s2
                | None => ("", None, s2)
                end).1
               /\ same_host
                    (match fc with
                     | Some child => renderAstNode pageMetadata child inputFileBytes s1
                     | None => ("", None, s1)
                     end).2
                    (match fc with
                     | Some child => renderAstNode pageMetadata child inputFileBytes s2
                     | None => ("", None, s2)
                     end).2).
  { destruct fc as [c|]; [|split; [reflexivity | exact H]].
    split; [now apply IHc|].
    eapply same_host_step; [exact H | apply renderAstNode_extends ..]. }
  destruct (match fc with
            | Some child => renderAstNode pageMetadata child inputFileBytes s1
            | None => ("", None, s1)
            end) as [[c1 e1] t1].
  destruct (match fc with
            | Some child => renderAstNode pageMetadata child inputFileBytes s2
            | None => ("", None, s2)
            end) as [[c2 e2] t2].
  destruct Hc as [[= -> ->] Ht]. simpl in Ht.
  destruct e2 as [e|]; [reflexivity|].
  pose proof (getTemplateContent_stable (Kind (mkNode p fc ns)) t1 t2 Ht) as Hg.
  pose proof (same_host_step _ _ _ _ Ht
                (getTemplateContent_extends (Kind (mkNode p fc ns)) t1)
                (getTemplateContent_extends (Kind (mkNode p fc ns)) t2)) as Hu.
  destruct (getTemplateContent _ t1) as [[tc1 g1] u1].
  destruct (getTemplateContent _ t2) as [[tc2 g2] u2].
  simpl in Hg, Hu. injection Hg as -> ->.
  destruct g2 as [e|]; [reflexivity|].
  destruct (renderTemplateToString _ _) as [output [e|]]; [reflexivity|].
  destruct ns as [b|]; [|reflexivity].
  pose proof (IHs b eq_refl u1 u2 Hu) as Hb.
  destruct (renderAstNode pageMetadata b inputFileBytes u1) as [[n1 f1] v1].
  destruct (renderAstNode pageMetadata b inputFileBytes u2) as [[n2 f2] v2].
  simpl in Hb. injection Hb as -> ->. destruct f2; reflexivity.
Qed.

Lemma renderOwn_extends pageMetadata inputFileBytes (n : Node) s :
  extends s (renderOwn pageMetadata n inputFileBytes s).2.
Proof.
  unfold renderOwn.
  assert (Hc : extends s
            (match FirstChild n with
             | Some child => renderAstNode pageMetadata child inputFileBytes s
             | None => ("", None, s)
             end).2).
  { destruct (FirstChild n) as [c|]; [apply renderAstNode_extends | apply extends_refl]. }
  destruct (match FirstChild n with
            | Some child => renderAstNode pageMetadata child inputFileBytes s
            | None => ("", None, s)
            end) as [[firstChildContent [e|]] s1]; [exact Hc|].
  pose proof (getTemplateContent_extends (Kind n) s1) as Hg.
  destruct (getTemplateContent _ s1) as [[templateContent [e|]] s2];
    [exact (extends_trans _ _ _ Hc Hg)|].
  destruct (renderTemplateToString _ _) as [output e].
  exact (extends_trans _ _ _ Hc Hg).
Qed.

Lemma renderOwn_stable pageMetadata inputFileBytes (n : Node) s1 s2 :
  same_host s1 s2 ->
  (renderOwn pageMetadata n inputFileBytes s1).1 =
  (renderOwn pageMetadata n inputFileBytes s2).1.
Proof.
  intros H. unfold renderOwn.
  assert (Hc : (match FirstChild n with
                | Some child => renderAstNode pageMetadata child inputFileBytes s1
                | None => ("", None, s1)
                end).1 =
               (match FirstChild n with
                | Some child => renderAstNode pageMetadata child inputFileBytes s2
                | None => ("", None, s2)
                end).1
               /\ same_host
                    (match FirstChild n with
                     | Some child => renderAstNode pageMetadata child inputFileBytes s1
                     | None => ("", None, s1)
                     end).2
                    (match FirstChild n with
                     | Some child => renderAstNode pageMetadata child inputFileBytes s2
                     | None => ("", None, s2)
                     end).2).
  { destruct (FirstChild n) as [c|]; [|split; [reflexivity | exact H]].
    split; [now apply renderAstNode_stable|].
    eapply same_host_step; [exact H | apply renderAstNode_extends ..]. }
  destruct (match FirstChild n with
            | Some child => renderAstNode pageMetadata child inputFileBytes s1
            | None => ("", None, s1)
            end) as [[c1 e1] t1].
  destruct (match FirstChild n with
            | Some child => renderAstNode pageMetadata child inputFileBytes s2
            | None => ("", None, s2)
            end) as [[c2 e2] t2].
  destruct Hc as [[= -> ->] Ht]. simpl in Ht.
  destruct e2 as [e|]; [reflexivity|].
  pose proof (getTemplateContent_stable (Kind n) t1 t2 Ht) as Hg.
  destruct (getTemplateContent _ t1) as [[tc1 g1] u1].
  destruct (getTemplateContent _ t2) as [[tc2 g2] u2].
  simpl in Hg. injection Hg as -> ->.
  destruct g2 as [e|]; [reflexivity|].
  destruct (renderTemplateToString _ _) as [output e]. reflexivity.
Qed.

Lemma siblings_cons (n : Node) :
  siblings n = n :: match NextSibling n with Some b => siblings b | None => [] end.
Proof. destruct n; reflexivity. Qed.

Lemma chain_rendered pageMetadata inputFileBytes (n : Node) :
  forall s,
    ((forall ni, In ni (siblings n) ->
        (renderOwn pageMetadata ni inputFileBytes s).1.2 = None) ->
     (renderAstNode pageMetadata n inputFileBytes s).1 =
       (strings.Join
          (map (fun ni => (renderOwn pageMetadata ni inputFileBytes s).1.1) (siblings n))
          newline, None))
    /\ ((exists ni, In ni (siblings n)
             /\ (renderOwn pageMetadata ni inputFileBytes s).1.2 <> None) ->
        exists err, (renderAstNode pageMetadata n inputFileBytes s).1 = ("", Some err)).
Proof.
  induction n as [p fc ns IHc IHs] using Node_links_ind. intros s.
  set (n := mkNode p fc ns).
  rewrite renderAstNode_eq, siblings_cons.
  pose proof (renderOwn_extends pageMetadata inputFileBytes n s) as Hext.
  destruct (renderOwn pageMetadata n inputFileBytes s) as [[output e] s1] eqn:Hown.
  simpl in Hext. apply extends_same_host in Hext.
  destruct e as [err|].
  - (* the node itself fails *)
    rewrite (renderOwn_error _ _ _ _ _ _ _ Hown). split.
    + intros Hall. specialize (Hall n (or_introl eq_refl)).
      rewrite Hown in Hall. discriminate.
    + intros _. exists err. reflexivity.
  - subst n. simpl NextSibling. destruct ns as [b|].
    + destruct (IHs b eq_refl s1) as [IHok IHerr].
      assert (Hsame : forall ni,
                 (renderOwn pageMetadata ni inputFileBytes s1).1 =
                 (renderOwn pageMetadata ni inputFileBytes s).1).
      { intros ni. symmetry. now apply renderOwn_stable. }
      split.
      * intros Hall.
        rewrite (surjective_pairing (renderAstNode pageMetadata b inputFileBytes s1)),
          (surjective_pairing (renderAstNode pageMetadata b inputFileBytes s1).1).
        rewrite IHok.
        2:{ intros ni Hin. rewrite Hsame. apply Hall. now right. }
        simpl. rewrite Hown. simpl. f_equal.
        rewrite (map_ext _ (fun ni => (renderOwn pageMetadata ni inputFileBytes s).1.1))
          by (intros ni; now rewrite Hsame).
        rewrite (siblings_cons b). reflexivity.
      * intros (ni & [<- | Hin] & Hne).
        { rewrite Hown in Hne. now contradiction Hne. }
        destruct IHerr as [err Herr].
        { exists ni. split; [exact Hin | now rewrite Hsame]. }
        rewrite (surjective_pairing (renderAstNode pageMetadata b inputFileBytes s1)),
          (surjective_pairing (renderAstNode pageMetadata b inputFileBytes s1).1).
        rewrite Herr. exists err. reflexivity.
    + split.
      * intros _. simpl. rewrite Hown. reflexivity.
      * intros (ni & [<- | []] & Hne). rewrite Hown in Hne. now contradiction Hne.
Qed.

(** C1. The output for a node that starts a sibling chain is the list
    of the fragments of the siblings, one for each and in the order of
    the chain, joined by single newlines, as soon as each of these
    fragments can be rendered (otherwise the renderer returns an error
    and the empty string); and a node with neither children nor a next
    sibling returns its instantiated template and nothing more. *)
Theorem C1_sibling_chain_in_order pageMetadata (n : Node) inputFileBytes s :
  let fragment ni := (renderOwn pageMetadata ni inputFileBytes s).1 in
  ((forall ni, In ni (siblings n) -> (fragment ni).2 = None) ->
   (renderAstNode pageMetadata n inputFileBytes s).1 =
     (strings.Join (map (fun ni => (fragment ni).1) (siblings n)) newline, None))
  /\ ((exists ni, In ni (siblings n) /\ (fragment ni).2 <> None) ->
      exists err, (renderAstNode pageMetadata n inputFileBytes s).1 = ("", Some err))
  /\ (forall p,
        let leaf : Node := mkNode p None None in
        renderAstNode pageMetadata leaf inputFileBytes s =
          let '(templateContent, err, s1) := getTemplateContent (Kind leaf) s in
          match err with
          | Some err => ("", Some err, s1)
          | None =>
              let '(output, err) :=
                renderTemplateToString templateContent
                  {| Meta := pageMetadata;
                     Config := generateTemplateDataConfig leaf;
                     Content := generateTemplateDataContent leaf inputFileBytes;
                     Children := "" |} in
              (output, err, s1)
          end).
Proof.
  cbv zeta. split; [|split].
  - apply chain_rendered.
  - apply chain_rendered.
  - intros p. simpl.
    destruct (getTemplateContent _ s) as [[templateContent [e|]] s1]; [reflexivity|].
    destruct (renderTemplateToString _ _) as [output [e|]]; reflexivity.
Qed.

Lemma renderAstNode_error pageMetadata (n : Node) inputFileBytes s output err s' :
  renderAstNode pageMetadata n inputFileBytes s = (output, Some err, s') -> output = "".
Proof.
  rewrite renderAstNode_eq.
  destruct (renderOwn pageMetadata n inputFileBytes s) as [[out [e|]] s1] eqn:Hown.
  - intros [= <- _ _]. eapply renderOwn_error, Hown.
  - destruct (NextSibling n) as [b|]; [|congruence].
    destruct (renderAstNode pageMetadata b inputFileBytes s1) as [[next [e|]] s2]; congruence.
Qed.

Lemma find_app_first {A} (f : A -> bool) (l1 l2 : list A) :
  find f (l1 ++ l2) = match find f l1 with Some x => Some x | None => find f l2 end.
Proof. induction l1 as [|a l1 IH]; simpl; [reflexivity|]. destruct (f a); auto. Qed.

Lemma visit_eq (n : Node) :
  visit n =
    match FirstChild n with Some child => visit child | None => [] end
    ++ n :: match NextSibling n with Some sibling => visit sibling | None => [] end.
Proof. destruct n; reflexivity. Qed.

Lemma ownError_unregistered pageMetadata inputFileBytes s (x : Node) :
  registry s !! Kind x = None ->
  ownError pageMetadata inputFileBytes s x = Some (errNoTemplate (Kind x)).
Proof.
  intros Hx. unfold ownError.
  destruct (getTemplateContent_spec (Kind x) s) as (s0 & _ & _ & _ & ->).
  rewrite Hx. reflexivity.
Qed.

Lemma ownError_stable pageMetadata inputFileBytes s1 s2 (y : Node) :
  same_host s1 s2 ->
  ownError pageMetadata inputFileBytes s1 y = ownError pageMetadata inputFileBytes s2 y.
Proof.
  intros H. unfold ownError.
  assert (Hc : match FirstChild y with
               | Some child => (renderAstNode pageMetadata child inputFileBytes s1).1.1
               | None => ""
               end =
               match FirstChild y with
               | Some child => (renderAstNode pageMetadata child inputFileBytes s2).1.1
               | None => ""
               end).
  { destruct (FirstChild y) as [c|]; [|reflexivity].
    now rewrite (renderAstNode_stable pageMetadata inputFileBytes c s1 s2 H). }
  rewrite Hc.
  pose proof (getTemplateContent_stable (Kind y) s1 s2 H) as Hg.
  destruct (getTemplateContent (Kind y) s1) as [[tc1 e1] u1].
  destruct (getTemplateContent (Kind y) s2) as [[tc2 e2] u2].
  simpl in Hg. injection Hg as -> ->. reflexivity.
Qed.

Lemma fails_true pageMetadata inputFileBytes s (y : Node) :
  fails pageMetadata inputFileBytes s y = true ->
  exists err, ownError pageMetadata inputFileBytes s y = Some err.
Proof.
  unfold fails. destruct (ownError pageMetadata inputFileBytes s y) as [err|];
    [eauto | discriminate].
Qed.

(** The error of a rendering is the error of the first node, in the order
    of rendering, whose own step fails. *)
Lemma first_failure pageMetadata inputFileBytes (n : Node) :
  forall s0 s, same_host s0 s ->
    (renderAstNode pageMetadata n inputFileBytes s).1.2 =
      match find (fails pageMetadata inputFileBytes s0) (visit n) with
      | Some y => ownError pageMetadata inputFileBytes s0 y
      | None => None
      end.
Proof.
  induction n as [p fc ns IHc IHs] using Node_links_ind. intros s0 s Hs.
  set (n := mkNode p fc ns).
  rewrite visit_eq, find_app_first, renderAstNode_eq.
  pose proof (renderOwn_extends pageMetadata inputFileBytes n s) as Hext.
  (* the step of the node itself, as [ownError] sees it *)
  assert (Hown : match find (fails pageMetadata inputFileBytes s0)
                         (match FirstChild n with Some c => visit c | None => [] end) with
                 | Some y =>
                     (renderOwn pageMetadata n inputFileBytes s).1.2
                     = ownError pageMetadata inputFileBytes s0 y
                 | None =>
                     (renderOwn pageMetadata n inputFileBytes s).1.2
                     = ownError pageMetadata inputFileBytes s0 n
                 end).
  { subst n. simpl FirstChild. destruct fc as [c|].
    - pose proof (IHc c eq_refl s0 s Hs) as Hc.
      pose proof (renderAstNode_extends pageMetadata inputFileBytes c s) as Hce.
      destruct (find (fails pageMetadata inputFileBytes s0) (visit c)) as [y|] eqn:Hf.
      + apply find_some in Hf as [_ Hy]. apply fails_true in Hy as [err Hy].
        rewrite Hy in Hc |- *. unfold renderOwn. simpl FirstChild.
        destruct (renderAstNode pageMetadata c inputFileBytes s) as [[cc e1] s1].
        simpl in Hc. subst e1. reflexivity.
      + rewrite (ownError_stable pageMetadata inputFileBytes s0 s _ Hs).
        unfold renderOwn, ownError. simpl FirstChild. simpl Kind. cbv beta iota.
        destruct (renderAstNode pageMetadata c inputFileBytes s) as [[cc e1] s1].
        simpl in Hc, Hce. subst e1.
        pose proof (getTemplateContent_stable (Kind (mkNode p (Some c) ns)) s s1
                      (extends_same_host _ _ Hce)) as Hg.
        simpl Kind in Hg.
        destruct (getTemplateContent _ s) as [[tc0 g0] u0].
        destruct (getTemplateContent _ s1) as [[tc1 g1] u1].
        simpl in Hg. injection Hg as -> ->.
        destruct g1 as [e|]; [reflexivity|].
        cbn [fst snd]. destruct (renderTemplateToString _ _) as [output e]. reflexivity.
    - simpl find. rewrite (ownError_stable pageMetadata inputFileBytes s0 s _ Hs).
      unfold renderOwn, ownError. simpl FirstChild. simpl Kind. cbv beta iota.
      destruct (getTemplateContent _ s) as [[tc [e|]] s2]; [reflexivity|].
      destruct (renderTemplateToString _ _) as [output e]. reflexivity. }
  destruct (renderOwn pageMetadata n inputFileBytes s) as [[output e] s1].
  simpl in Hext, Hown.
  destruct (find (fails pageMetadata inputFileBytes s0) _) as [y|] eqn:Hf.
  - apply find_some in Hf as [_ Hy]. apply fails_true in Hy as [err Hy].
    rewrite Hy in Hown |- *. subst e. reflexivity.
  - simpl find. unfold fails at 1. rewrite <- Hown.
    destruct e as [err|]; [exact Hown|].
    subst n. simpl NextSibling. destruct ns as [b|]; [|reflexivity].
    assert (Hs1 : same_host s0 s1).
    { eapply same_host_step; [exact Hs | apply extends_refl | exact Hext]. }
    pose proof (IHs b eq_refl s0 s1 Hs1) as Hb.
    destruct (renderAstNode pageMetadata b inputFileBytes s1) as [[next e2] s2].
    simpl in Hb. rewrite <- Hb. destruct e2; reflexivity.
Qed.

End Rendering.

(** *** The page-assembly entry point *)

Section PageAssembly.
Context {ext : Externals}.

Abbreviation Node := (ast.Node Segment).

(** The first required key that is missing is the one the error names,
    and nothing has happened by then. *)
Lemma RenderAst_missing (pageMetadata : gmap string GoValue) key (n : Node)
    inputFileBytes s :
  find (missing pageMetadata) requiredKeys = Some key ->
  RenderAst pageMetadata n inputFileBytes s = (Some (errMissingField key), s).
Proof.
  unfold requiredKeys, missing, RenderAst. simpl.
  destruct (pageMetadata !! "title"); [|intros [= <-]; reflexivity].
  destruct (pageMetadata !! "description"); [|intros [= <-]; reflexivity].
  destruct (pageMetadata !! "slug"); [|intros [= <-]; reflexivity].
  destruct (pageMetadata !! "path"); [|intros [= <-]; reflexivity].
  discriminate.
Qed.

Lemma RenderAst_bad_path (pageMetadata : gmap string GoValue) t d sl p (n : Node)
    inputFileBytes s :
  pageMetadata !! "title" = Some t -> pageMetadata !! "description" = Some d ->
  pageMetadata !! "slug" = Some sl -> pageMetadata !! "path" = Some p ->
  strings.HasPrefix (fmt.Sprintf_s p) "/" = false ->
  RenderAst pageMetadata n inputFileBytes s = (Some errPathPrefix, s).
Proof.
  intros Ht Hd Hs Hp Hpre. unfold RenderAst. rewrite Ht, Hd, Hs, Hp, Hpre. reflexivity.
Qed.

(** With the four keys present and a path that starts with a slash,
    [RenderAst] renders the tree and hands the result to [writeOutput]. *)
Lemma RenderAst_valid (pageMetadata : gmap string GoValue) t d sl p (n : Node)
    inputFileBytes s :
  pageMetadata !! "title" = Some t -> pageMetadata !! "description" = Some d ->
  pageMetadata !! "slug" = Some sl -> pageMetadata !! "path" = Some p ->
  strings.HasPrefix (fmt.Sprintf_s p) "/" = true ->
  RenderAst pageMetadata n inputFileBytes s =
    let '(output, err, s1) :=
      renderAstNode
        {| Title := fmt.Sprintf_s t; Description := fmt.Sprintf_s d;
           Slug := fmt.Sprintf_s sl; Path := DocumentTemplatePath |}
        n inputFileBytes s in
    match err with
    | Some err => (Some err, s1)
    | None => writeOutput (fmt.Sprintf_s p) output s1
    end.
Proof.
  intros Ht Hd Hs Hp Hpre. unfold RenderAst. rewrite Ht, Hd, Hs, Hp, Hpre. simpl.
  destruct (renderAstNode _ n inputFileBytes s) as [[output [e|]] s1]; reflexivity.
Qed.

Lemma missing_first (pageMetadata : gmap string GoValue) key :
  In key requiredKeys -> pageMetadata !! key = None ->
  exists named, find (missing pageMetadata) requiredKeys = Some named
                /\ In named requiredKeys /\ pageMetadata !! named = None.
Proof.
  intros Hin Hnone.
  destruct (find (missing pageMetadata) requiredKeys) as [named|] eqn:Hf.
  - exists named. apply find_some in Hf as [Hin' Hm]. unfold missing in Hm.
    repeat split; [exact Hin'|]. destruct (pageMetadata !! named); [discriminate | reflexivity].
  - exfalso. pose proof (find_none _ _ Hf key Hin) as Hm. unfold missing in Hm.
    rewrite Hnone in Hm. discriminate.
Qed.

(** C5. Metadata that lacks a required key is rejected with the error
    that names a key it lacks (the first one in the order title,
    description, slug, path; the lacking key itself when it is the only
    one), and the state comes back as it was: no template was resolved or
    read, nothing was asked of the file system, no file was written. *)
Theorem C5_missing_field_rejected (pageMetadata : gmap string GoValue) (key : string) :
  In key requiredKeys -> pageMetadata !! key = None ->
  exists named,
    In named requiredKeys /\ pageMetadata !! named = None
    /\ find (missing pageMetadata) requiredKeys = Some named
    /\ ((forall other, In other requiredKeys -> other <> key ->
          pageMetadata !! other <> None) -> named = key)
    /\ forall (n : Node) inputFileBytes s,
         RenderAst pageMetadata n inputFileBytes s = (Some (errMissingField named), s).
Proof.
  intros Hin Hnone.
  destruct (missing_first pageMetadata key Hin Hnone) as (named & Hf & Hin' & Hnone').
  exists named. repeat split; try assumption.
  - intros Hothers. destruct (decide (named = key)) as [E|E]; [exact E|].
    exfalso. exact (Hothers named Hin' E Hnone').
  - intros n inputFileBytes s. now apply RenderAst_missing.
Qed.

(** C9. With valid metadata the renderer is called with the page
    metadata whose title, description and slug are the [%s] renderings of
    the values of these keys and whose path is the constant
    [DocumentTemplatePath], which is not the path of the page. *)
Theorem C9_page_meta_passed (pageMetadata : gmap string GoValue) t d sl p (n : Node)
    inputFileBytes s :
  pageMetadata !! "title" = Some t -> pageMetadata !! "description" = Some d ->
  pageMetadata !! "slug" = Some sl -> pageMetadata !! "path" = Some p ->
  strings.HasPrefix (fmt.Sprintf_s p) "/" = true ->
  let pageMeta :=
    {| Title := fmt.Sprintf_s t; Description := fmt.Sprintf_s d;
       Slug := fmt.Sprintf_s sl; Path := DocumentTemplatePath |} in
  RenderAst pageMetadata n inputFileBytes s =
    (let '(output, err, s1) := renderAstNode pageMeta n inputFileBytes s in
     match err with
     | Some err => (Some err, s1)
     | None => writeOutput (fmt.Sprintf_s p) output s1
     end)
  /\ Path pageMeta = "../templates/block/document.tmpl.html"
  /\ Path pageMeta <> fmt.Sprintf_s p.
Proof.
  intros Ht Hd Hs Hp Hpre pageMeta. split; [|split].
  - now apply RenderAst_valid.
  - reflexivity.
  - simpl. intros E. rewrite <- E in Hpre. discriminate.
Qed.

Lemma all_present (pageMetadata : gmap string GoValue) :
  find (missing pageMetadata) requiredKeys = None ->
  exists t d sl p,
    pageMetadata !! "title" = Some t /\ pageMetadata !! "description" = Some d
    /\ pageMetadata !! "slug" = Some sl /\ pageMetadata !! "path" = Some p.
Proof.
  unfold requiredKeys, missing. simpl.
  destruct (pageMetadata !! "title") as [t|]; [|discriminate].
  destruct (pageMetadata !! "description") as [d|]; [|discriminate].
  destruct (pageMetadata !! "slug") as [sl|]; [|discriminate].
  destruct (pageMetadata !! "path") as [p|]; [|discriminate].
  intros _. exists t, d, sl, p. repeat split.
Qed.

(** What [RenderAst] does with the path, in terms of what the host
    answers.  Metadata whose path does not start with a slash is rejected
    with the state as it was.  With a path that starts with a slash and a
    tree that renders, [RenderAst] asks for the directory when it is absent
    (an error of that step is returned) and then asks for one file,
    [path.Join("build", path, "/index.html")], with the rendered page as
    its content; its result is the host's answer to that call. *)
Lemma RenderAst_path_and_output (pageMetadata : gmap string GoValue) p :
  pageMetadata !! "path" = Some p ->
  (strings.HasPrefix (fmt.Sprintf_s p) "/" = false ->
   exists err,
     (forall (n : Node) inputFileBytes s,
         RenderAst pageMetadata n inputFileBytes s = (Some err, s))
     /\ (find (missing pageMetadata) requiredKeys = None -> err = errPathPrefix))
  /\ (strings.HasPrefix (fmt.Sprintf_s p) "/" = true ->
      forall t d sl (n : Node) inputFileBytes s output s1,
        pageMetadata !! "title" = Some t -> pageMetadata !! "description" = Some d ->
        pageMetadata !! "slug" = Some sl ->
        renderAstNode
          {| Title := fmt.Sprintf_s t; Description := fmt.Sprintf_s d;
             Slug := fmt.Sprintf_s sl; Path := DocumentTemplatePath |}
          n inputFileBytes s = (output, None, s1) ->
        let dir := path.Join ["build"; fmt.Sprintf_s p] in
        let file := path.Join ["build"; fmt.Sprintf_s p; "/index.html"] in
        let data := list_byte_of_string output in
        let r := RenderAst pageMetadata n inputFileBytes s in
        let absent := os_IsNotExist (os_Stat dir (world s1)) in
        let made := os_MkdirAll dir os.ModeDir (world s1) in
        match (if absent then made.1 else None) with
        | Some err =>
            r.1 = Some err /\ world r.2 = made.2
            /\ calls r.2 = calls s1 ++ [CallStat dir; CallMkdirAll dir os.ModeDir]
        | None =>
            let w := if absent then made.2 else world s1 in
            r.1 = (ioutil_WriteFile file data os.ModeAppend w).1
            /\ world r.2 = (ioutil_WriteFile file data os.ModeAppend w).2
            /\ calls r.2 =
                 calls s1 ++ CallStat dir
                   :: (if absent then [CallMkdirAll dir os.ModeDir] else [])
                   ++ [CallWriteFile file data os.ModeAppend]
        end)
  /\ (strings.HasPrefix (fmt.Sprintf_s p) "/" = true ->
      forall t d sl (n : Node) inputFileBytes s s',
        pageMetadata !! "title" = Some t -> pageMetadata !! "description" = Some d ->
        pageMetadata !! "slug" = Some sl ->
        RenderAst pageMetadata n inputFileBytes s = (None, s') ->
        exists output s1 w made,
          renderAstNode
            {| Title := fmt.Sprintf_s t; Description := fmt.Sprintf_s d;
               Slug := fmt.Sprintf_s sl; Path := DocumentTemplatePath |}
            n inputFileBytes s = (output, None, s1)
          /\ ioutil_WriteFile (path.Join ["build"; fmt.Sprintf_s p; "/index.html"])
               (list_byte_of_string output) os.ModeAppend w = (None, world s')
          /\ calls s' =
               calls s1 ++ CallStat (path.Join ["build"; fmt.Sprintf_s p])
                 :: made
                 ++ [CallWriteFile (path.Join ["build"; fmt.Sprintf_s p; "/index.html"])
                       (list_byte_of_string output) os.ModeAppend]
          /\ (made = []
              \/ made = [CallMkdirAll (path.Join ["build"; fmt.Sprintf_s p]) os.ModeDir]))
  /\ path.Join ["build"; "/about"; "/index.html"] = "build/about/index.html".
Proof.
  intros Hp. split; [|split; [|split; [|reflexivity]]].
  - intros Hpre.
    destruct (find (missing pageMetadata) requiredKeys) as [key|] eqn:Hf.
    + exists (errMissingField key). split; [|discriminate].
      intros n inputFileBytes s. now apply RenderAst_missing.
    + exists errPathPrefix. split; [|reflexivity].
      intros n inputFileBytes s.
      destruct (all_present _ Hf) as (t & d & sl & p' & Ht & Hd & Hs & Hp').
      rewrite Hp in Hp'. injection Hp' as <-.
      now apply (RenderAst_bad_path _ t d sl p).
  - intros Hpre t d sl n inputFileBytes s output s1 Ht Hd Hs Hrender.
    cbv zeta. rewrite (RenderAst_valid _ t d sl p n inputFileBytes s Ht Hd Hs Hp Hpre).
    rewrite Hrender. unfold writeOutput. simpl.
    destruct (os_IsNotExist _); simpl.
    + destruct (os_MkdirAll _ _ _) as [[e|] w]; simpl.
      * rewrite <- app_assoc. repeat split.
      * destruct (ioutil_WriteFile _ _ _ w) as [e w']; simpl.
        rewrite <- !app_assoc. repeat split.
    + destruct (ioutil_WriteFile _ _ _ _) as [e w']; simpl.
      rewrite <- !app_assoc. repeat split.
  - intros Hpre t d sl n inputFileBytes s s' Ht Hd Hs.
    rewrite (RenderAst_valid _ t d sl p n inputFileBytes s Ht Hd Hs Hp Hpre).
    destruct (renderAstNode _ n inputFileBytes s) as [[output [e|]] s1]; [discriminate|].
    unfold writeOutput. simpl.
    destruct (os_IsNotExist _); simpl.
    + destruct (os_MkdirAll _ _ _) as [[e|] w] eqn:Hmk; simpl; [discriminate|].
      destruct (ioutil_WriteFile _ _ _ w) as [e w'] eqn:Hw; simpl.
      intros [= -> <-].
      exists output, s1, w, [CallMkdirAll (path.Join ["build"; fmt.Sprintf_s p]) os.ModeDir].
      simpl. rewrite <- !app_assoc. repeat split; [exact Hw | now right].
    + destruct (ioutil_WriteFile _ _ _ (world s1)) as [e w'] eqn:Hw; simpl.
      intros [= -> <-]. exists output, s1, (world s1), [].
      simpl. rewrite <- !app_assoc. repeat split; [exact Hw | now left].
Qed.

(** C10 (amended). Validation looks at the presence of the four keys
    only, in the order title, description, slug, path: the error names
    the first one that is missing.  With the four keys present, values of
    any type pass; each is rendered with the verb [%s], which leaves a
    string as it is, and the only other check is that the rendered path
    starts with a slash. *)
Theorem C10_validation_presence_only (pageMetadata : gmap string GoValue) (n : Node)
    inputFileBytes s :
  (forall key, find (missing pageMetadata) requiredKeys = Some key ->
     RenderAst pageMetadata n inputFileBytes s = (Some (errMissingField key), s))
  /\ (forall t d sl p,
        pageMetadata !! "title" = Some t -> pageMetadata !! "description" = Some d ->
        pageMetadata !! "slug" = Some sl -> pageMetadata !! "path" = Some p ->
        if strings.HasPrefix (fmt.Sprintf_s p) "/" then
          RenderAst pageMetadata n inputFileBytes s =
            let '(output, err, s1) :=
              renderAstNode
                {| Title := fmt.Sprintf_s t; Description := fmt.Sprintf_s d;
                   Slug := fmt.Sprintf_s sl; Path := DocumentTemplatePath |}
                n inputFileBytes s in
            match err with
            | Some err => (Some err, s1)
            | None => writeOutput (fmt.Sprintf_s p) output s1
            end
        else RenderAst pageMetadata n inputFileBytes s = (Some errPathPrefix, s))
  /\ (forall x, fmt.Sprintf_s (VString x) = x).
Proof.
  split; [|split].
  - intros key Hf. now apply RenderAst_missing.
  - intros t d sl p Ht Hd Hs Hp.
    destruct (strings.HasPrefix (fmt.Sprintf_s p) "/") eqn:Hpre.
    + now apply RenderAst_valid.
    + now apply (RenderAst_bad_path _ t d sl p).
  - reflexivity.
Qed.

(** C7 (amended). A tree with a node of an unregistered kind is never
    rendered: the renderer returns an error and the empty string, and
    [RenderAst] returns an error after at most reading template files, so
    no file is written.  The error is that of the first node, in the order
    of rendering, whose own template cannot be resolved, read, parsed or
    executed; it names the unregistered kind when no node rendered before
    the node of that kind fails. *)
Theorem C7_unregistered_kind_aborts pageMeta (n : Node) inputFileBytes s x :
  In x (visit n) -> registry s !! Kind x = None ->
  (exists err, (renderAstNode pageMeta n inputFileBytes s).1 = ("", Some err))
  /\ (renderAstNode pageMeta n inputFileBytes s).1.2 =
       match find (fails pageMeta inputFileBytes s) (visit n) with
       | Some y => ownError pageMeta inputFileBytes s y
       | None => None
       end
  /\ (forall pre post,
        visit n = pre ++ x :: post ->
        (forall y, In y pre -> ownError pageMeta inputFileBytes s y = None) ->
        (renderAstNode pageMeta n inputFileBytes s).1 = ("", Some (errNoTemplate (Kind x))))
  /\ (forall pageMetadata : gmap string GoValue,
        exists err,
          (RenderAst pageMetadata n inputFileBytes s).1 = Some err
          /\ extends s (RenderAst pageMetadata n inputFileBytes s).2).
Proof.
  intros Hin Hx.
  assert (Hfirst : forall pm,
             (renderAstNode pm n inputFileBytes s).1.2 =
               match find (fails pm inputFileBytes s) (visit n) with
               | Some y => ownError pm inputFileBytes s y
               | None => None
               end).
  { intros pm. apply first_failure. split; reflexivity. }
  assert (Hempty : forall pm err,
             (renderAstNode pm n inputFileBytes s).1.2 = Some err ->
             (renderAstNode pm n inputFileBytes s).1 = ("", Some err)).
  { intros pm err H.
    destruct (renderAstNode pm n inputFileBytes s) as [[output e] s1] eqn:Hr.
    simpl in H. subst e. simpl. now rewrite (renderAstNode_error _ _ _ _ _ _ _ Hr). }
  assert (Hfail : forall pm, exists err,
             (renderAstNode pm n inputFileBytes s).1 = ("", Some err)).
  { intros pm. specialize (Hfirst pm).
    destruct (find (fails pm inputFileBytes s) (visit n)) as [y|] eqn:Hf.
    - apply find_some in Hf as [_ Hy]. apply fails_true in Hy as [err Hy].
      exists err. apply Hempty. now rewrite Hfirst.
    - exfalso. pose proof (find_none _ _ Hf x Hin) as Hn. unfold fails in Hn.
      rewrite (ownError_unregistered pm inputFileBytes s x Hx) in Hn. discriminate. }
  split; [apply Hfail | split; [apply Hfirst | split]].
  - intros pre post Hv Hpre. apply Hempty. rewrite Hfirst, Hv, find_app_first.
    assert (Hnone : find (fails pageMeta inputFileBytes s) pre = None).
    { clear Hv. induction pre as [|y pre IH]; [reflexivity|]. simpl.
      unfold fails at 1. rewrite (Hpre y (or_introl eq_refl)).
      apply IH. intros z Hz. apply Hpre. now right. }
    rewrite Hnone. simpl find. unfold fails.
    rewrite (ownError_unregistered pageMeta inputFileBytes s x Hx). cbv beta iota.
    now apply ownError_unregistered.
  - intros pageMetadata.
    destruct (find (missing pageMetadata) requiredKeys) as [key|] eqn:Hf.
    { rewrite (RenderAst_missing _ key) by exact Hf.
      eexists; split; [reflexivity | apply extends_refl]. }
    destruct (all_present _ Hf) as (t & d & sl & p & Ht & Hd & Hs & Hp).
    destruct (strings.HasPrefix (fmt.Sprintf_s p) "/") eqn:Hpre.
    + rewrite (RenderAst_valid _ t d sl p) by assumption.
      destruct (Hfail {| Title := fmt.Sprintf_s t; Description := fmt.Sprintf_s d;
                         Slug := fmt.Sprintf_s sl; Path := DocumentTemplatePath |})
        as [err Herr].
      pose proof (renderAstNode_extends
                    {| Title := fmt.Sprintf_s t; Description := fmt.Sprintf_s d;
                       Slug := fmt.Sprintf_s sl; Path := DocumentTemplatePath |}
                    inputFileBytes n s) as Hext.
      destruct (renderAstNode _ n inputFileBytes s) as [[output e] s1].
      simpl in Herr. injection Herr as -> ->.
      exists err. split; [reflexivity | exact Hext].
    + rewrite (RenderAst_bad_path _ t d sl p) by assumption.
      eexists; split; [reflexivity | apply extends_refl].
Qed.

End PageAssembly.

(** *** The modes of the output directory and file *)

(** C6. Metadata whose path does not start with a slash is rejected with
    the state as it was, on every host.  For a path that starts with a
    slash the page is not always written, though the tree renders:
    [RenderAst] passes the type flags [os.ModeDir] and [os.ModeAppend]
    where the permissions of the directory and of the file belong, and
    neither flag has a permission bit.  On a host that honours permission
    bits, for the page ["/about"] in a working directory without [build],
    [MkdirAll] makes [build] with mode 0 and fails at [build/about] with
    "permission denied": [RenderAst] returns that error and writes no
    file.  Where [build/about] is there already, the file is created with
    mode 0, and rendering the page again fails to open it. *)
Theorem C6_modes_without_permission_bits :
  (forall (ext : Externals) (pageMetadata : gmap string GoValue) t d sl p
          (n : ast.Node Segment) inputFileBytes (s : State),
      pageMetadata !! "title" = Some t -> pageMetadata !! "description" = Some d ->
      pageMetadata !! "slug" = Some sl -> pageMetadata !! "path" = Some p ->
      strings.HasPrefix (fmt.Sprintf_s p) "/" = false ->
      RenderAst pageMetadata n inputFileBytes s = (Some errPathPrefix, s))
  /\ (forall (ext : Externals) (pagePath output : string) (s : State),
        exists tail,
          calls (writeOutput pagePath output s).2 = calls s ++ tail
          /\ Forall (fun c => match c with
                              | CallMkdirAll _ perm | CallWriteFile _ _ perm =>
                                  os.Perm perm = 0
                              | _ => True
                              end) tail)
  /\ (let s := unix.start in
      let rendered :=
        renderAstNode (ext := unix.host) demo.homeMeta demo.twoParagraphs demo.source s in
      let r :=
        RenderAst (ext := unix.host) demo.pageMetadata demo.twoParagraphs demo.source s in
      demo.pageMetadata !! "path" = Some (VString "/about")
      /\ rendered.1.2 = None
      /\ r.1 = Some "mkdir build/about: permission denied"
      /\ calls r.2 =
           calls rendered.2
           ++ [CallStat "build/about"; CallMkdirAll "build/about" os.ModeDir]
      /\ world r.2 !! "build" = Some (unix.Directory 0)
      /\ world r.2 !! "build/about" = None
      /\ world r.2 !! "build/about/index.html" = None)
  /\ (let s := unix.startWithDirectory in
      let rendered :=
        renderAstNode (ext := unix.host) demo.homeMeta demo.twoParagraphs demo.source s in
      let file := "build/about/index.html" in
      let data := list_byte_of_string rendered.1.1 in
      let first :=
        RenderAst (ext := unix.host) demo.pageMetadata demo.twoParagraphs demo.source s in
      let again :=
        RenderAst (ext := unix.host) demo.pageMetadata demo.twoParagraphs demo.source
          first.2 in
      first.1 = None
      /\ world first.2 !! file = Some (unix.RegularFile 0 data)
      /\ again.1 = Some "open build/about/index.html: permission denied"
      /\ world again.2 !! file = Some (unix.RegularFile 0 data)).
Proof.
  split; [|split; [|split]].
  - intros ext pageMetadata t d sl p n inputFileBytes s. apply RenderAst_bad_path.
  - intros ext pagePath output s. unfold writeOutput. simpl.
    destruct (os_IsNotExist _); simpl.
    + destruct (os_MkdirAll _ _ _) as [[e|] w]; simpl.
      * eexists. rewrite <- app_assoc. split; [reflexivity|].
        repeat constructor.
      * destruct (ioutil_WriteFile _ _ _ w) as [e w']; simpl.
        eexists. rewrite <- !app_assoc. split; [reflexivity|].
        repeat constructor.
    + destruct (ioutil_WriteFile _ _ _ _) as [e w']; simpl.
      eexists. rewrite <- !app_assoc. split; [reflexivity|].
      repeat constructor.
  - cbv zeta. repeat split; vm_compute; reflexivity.
  - cbv zeta. repeat split; vm_compute; reflexivity.
Qed.

(** *** The template registry *)

Section Registry.
Context {ext : Externals}.

Abbreviation Node := (ast.Node Segment).

Lemma InitKindTemplateMap_core (s : State) nodeKind :
  isCore nodeKind = true -> is_Some (KindTemplateMap (InitKindTemplateMap s) !! nodeKind).
Proof.
  intros H. unfold InitKindTemplateMap. cbv zeta.
  cbn [KindTemplateMap].
  destruct nodeKind; try discriminate H;
    repeat (first [ rewrite lookup_insert_eq; eexists; reflexivity
                  | rewrite lookup_insert_ne by discriminate ]).
Qed.

Lemma InitKindTemplateMap_size (s : State) :
  size (KindTemplateMap (InitKindTemplateMap s)) = 19%nat.
Proof.
  unfold InitKindTemplateMap. cbv zeta. cbn [KindTemplateMap].
  repeat (rewrite map_size_insert_None
            by (rewrite ?lookup_insert_ne by discriminate; apply lookup_empty)).
  rewrite map_size_empty. reflexivity.
Qed.

(** X1. [InitKindTemplateMap] registers the nineteen kinds of goldmark's
    core and no kind of an extension; it throws away the map that was
    there, and touches neither the host nor the log. *)
Theorem X1_registry_is_the_core_kinds (s : State) :
  (forall nodeKind,
      is_Some (KindTemplateMap (InitKindTemplateMap s) !! nodeKind)
      <-> isCore nodeKind = true)
  /\ size (KindTemplateMap (InitKindTemplateMap s)) = 19%nat
  /\ (forall s', KindTemplateMap (InitKindTemplateMap s')
                 = KindTemplateMap (InitKindTemplateMap s))
  /\ world (InitKindTemplateMap s) = world s
  /\ calls (InitKindTemplateMap s) = calls s.
Proof.
  split; [|split; [apply InitKindTemplateMap_size | repeat split]].
  intros nodeKind. split.
  - intros [templatePath H]. destruct nodeKind; try reflexivity.
    rewrite InitKindTemplateMap_extension in H. discriminate.
  - apply InitKindTemplateMap_core.
Qed.

(** X2. The initialisation in [getTemplateContent] is lazy and happens
    once: a map that is not empty is left as it is, an empty one is
    replaced by the map of [InitKindTemplateMap], and after any call the
    map is not empty, so that no later call changes it. *)
Theorem X2_lazy_initialisation (nodeKind : NodeKind) (s : State) :
  let s' := (getTemplateContent nodeKind s).2 in
  (size (KindTemplateMap s) <> 0%nat -> KindTemplateMap s' = KindTemplateMap s)
  /\ (size (KindTemplateMap s) = 0%nat ->
      KindTemplateMap s' = KindTemplateMap (InitKindTemplateMap s))
  /\ size (KindTemplateMap s') <> 0%nat
  /\ (forall other, KindTemplateMap (getTemplateContent other s').2 = KindTemplateMap s').
Proof.
  cbv zeta.
  assert (Hk : forall k t, KindTemplateMap (getTemplateContent k t).2 = registry t).
  { intros k t. destruct (getTemplateContent_spec k t) as (t0 & K & _ & _ & ->).
    destruct (registry t !! k) as [templatePath|]; [|exact K].
    destruct (ioutil_ReadFile templatePath (world t)); exact K. }
  assert (Hn : forall t, size (registry t) <> 0%nat).
  { intros t. apply Nat.eqb_neq, registry_nonempty. }
  rewrite Hk. split; [|split; [|split]].
  - intros H. unfold registry. apply Nat.eqb_neq in H. now rewrite H.
  - intros H. unfold registry. now rewrite H.
  - apply Hn.
  - intros other. rewrite Hk. unfold registry at 1.
    destruct (size (KindTemplateMap (getTemplateContent nodeKind s).2) =? 0)%nat eqn:E;
      [|apply Hk].
    apply Nat.eqb_eq in E. rewrite Hk in E. now contradiction (Hn s).
Qed.

(** X3. [getTemplateContent] never changes the host.  For a kind without
    template it reads no file; for a registered kind it reads the file of
    that kind once, also when the reading fails; and with every error it
    returns the empty string. *)
Theorem X3_template_lookup_calls (nodeKind : NodeKind) (s : State) :
  let r := getTemplateContent nodeKind s in
  world r.2 = world s
  /\ calls r.2 =
       calls s ++ match registry s !! nodeKind with
                  | Some templatePath => [CallReadFile templatePath]
                  | None => []
                  end
  /\ (registry s !! nodeKind = None -> r.1 = ("", Some (errNoTemplate nodeKind)))
  /\ (forall err, r.1.2 = Some err -> r.1.1 = "")
  /\ (forall templatePath templateContent,
        registry s !! nodeKind = Some templatePath ->
        ioutil_ReadFile templatePath (world s) = inl templateContent ->
        r.1 = (string_of_list_byte templateContent, None)).
Proof.
  cbv zeta. destruct (getTemplateContent_spec nodeKind s) as (s0 & K & W & C & ->).
  destruct (registry s !! nodeKind) as [templatePath|].
  - destruct (ioutil_ReadFile templatePath (world s)) as [content|e] eqn:Hr; simpl;
      rewrite C; repeat split; congruence.
  - simpl. rewrite C, app_nil_r. repeat split; congruence.
Qed.

End Registry.

(** *** What a rendering reads and returns *)

Section Traces.
Context {ext : Externals}.

Abbreviation Node := (ast.Node Segment).

Lemma getTemplateContent_success nodeKind s templateContent s' :
  getTemplateContent nodeKind s = (templateContent, None, s') ->
  exists templatePath,
    registry s !! nodeKind = Some templatePath
    /\ calls s' = calls s ++ [CallReadFile templatePath]
    /\ registry s' = registry s.
Proof.
  intros H. pose proof (getTemplateContent_extends nodeKind s) as (R & _).
  rewrite H in R. simpl in R. revert H.
  destruct (getTemplateContent_spec nodeKind s) as (s0 & _ & _ & C & ->).
  destruct (registry s !! nodeKind) as [templatePath|]; [|discriminate].
  destruct (ioutil_ReadFile templatePath (world s)); [|discriminate].
  intros [= _ <-]. exists templatePath. simpl. rewrite C. repeat split. exact R.
Qed.

Lemma templateRead_registry s1 s2 (l : list Node) :
  registry s1 = registry s2 -> map (templateRead s1) l = map (templateRead s2) l.
Proof. intros H. apply map_ext. intros y. unfold templateRead. now rewrite H. Qed.

Lemma reads_on_success pageMetadata inputFileBytes (n : Node) :
  forall s output s',
    renderAstNode pageMetadata n inputFileBytes s = (output, None, s') ->
    calls s' = calls s ++ map (templateRead s) (visit n)
    /\ (forall y, In y (visit n) -> is_Some (registry s !! Kind y))
    /\ registry s' = registry s.
Proof.
  induction n as [p fc ns IHc IHs] using Node_links_ind. intros s output s' H.
  rewrite visit_eq. simpl FirstChild. simpl NextSibling. simpl in H.
  assert (Hc : forall cc s1,
             match fc with
             | Some child => renderAstNode pageMetadata child inputFileBytes s
             | None => ("", None, s)
             end = (cc, None, s1) ->
             calls s1 = calls s
                        ++ map (templateRead s)
                             (match fc with Some child => visit child | None => [] end)
             /\ (forall y, In y (match fc with Some child => visit child | None => [] end) ->
                           is_Some (registry s !! Kind y))
             /\ registry s1 = registry s).
  { intros cc s1 E. destruct fc as [c|].
    - exact (IHc c eq_refl s cc s1 E).
    - injection E as _ <-. simpl. rewrite app_nil_r. repeat split. intros y []. }
  destruct (match fc with
            | Some child => renderAstNode pageMetadata child inputFileBytes s
            | None => ("", None, s)
            end) as [[cc [e|]] s1]; [discriminate|].
  destruct (Hc cc s1 eq_refl) as (C1 & A1 & R1).
  destruct (getTemplateContent _ s1) as [[tc [e|]] s2] eqn:Hg; [discriminate|].
  apply getTemplateContent_success in Hg as (templatePath & Hreg & C2 & R2).
  simpl Kind in Hreg.
  destruct (renderTemplateToString _ _) as [out [e|]]; [discriminate|].
  assert (Hself : templateRead s (mkNode p fc ns) = CallReadFile templatePath).
  { unfold templateRead. rewrite <- R1. simpl Kind. now rewrite Hreg. }
  assert (Aself : is_Some (registry s !! Kind (mkNode p fc ns))).
  { rewrite <- R1. simpl Kind. rewrite Hreg. eauto. }
  destruct ns as [b|].
  - destruct (renderAstNode pageMetadata b inputFileBytes s2) as [[next [e|]] s3] eqn:Hb;
      [discriminate|].
    injection H as _ <-.
    destruct (IHs b eq_refl s2 next s3 Hb) as (C3 & A3 & R3).
    assert (R02 : registry s2 = registry s) by congruence.
    split; [|split; [|congruence]].
    + rewrite C3, C2, C1, map_app, map_cons, Hself, (templateRead_registry s2 s _ R02).
      rewrite <- !app_assoc. reflexivity.
    + intros y Hy. apply in_app_or in Hy as [Hy | [<- | Hy]];
        [now apply A1 | exact Aself |].
      rewrite <- R02. now apply A3.
  - injection H as _ <-. split; [|split; [|congruence]].
    + rewrite C2, C1, map_app, map_cons, Hself. rewrite <- !app_assoc. reflexivity.
    + intros y Hy. apply in_app_or in Hy as [Hy | [<- | []]];
        [now apply A1 | exact Aself].
Qed.

(** X4. A rendering that succeeds reads one template file for each node
    of the tree, in the order of rendering and with no other call in
    between, so the file of a kind is read again for every node of that
    kind; and every kind in the tree is registered. *)
Theorem X4_one_read_per_node pageMetadata (n : Node) inputFileBytes s output s' :
  renderAstNode pageMetadata n inputFileBytes s = (output, None, s') ->
  calls s' = calls s ++ map (templateRead s) (visit n)
  /\ length (calls s') = (length (calls s) + length (visit n))%nat
  /\ (forall y, In y (visit n) -> is_Some (registry s !! Kind y)).
Proof.
  intros H. destruct (reads_on_success _ _ _ _ _ _ H) as (C & A & _).
  split; [exact C | split; [|exact A]].
  rewrite C, length_app, length_map. reflexivity.
Qed.

(** X5. A rendering succeeds exactly when no node of the tree fails its
    own step, that is when every template in the tree is registered,
    readable, parsed and executed without error. *)
Theorem X5_success_iff_no_step_fails pageMetadata (n : Node) inputFileBytes s :
  (renderAstNode pageMetadata n inputFileBytes s).1.2 = None
  <-> forall y, In y (visit n) -> ownError pageMetadata inputFileBytes s y = None.
Proof.
  rewrite (first_failure pageMetadata inputFileBytes n s s (conj eq_refl eq_refl)).
  destruct (find (fails pageMetadata inputFileBytes s) (visit n)) as [y|] eqn:Hf.
  - apply find_some in Hf as [Hin Hy]. apply fails_true in Hy as [err Hy].
    rewrite Hy. split; [discriminate|].
    intros H. rewrite (H y Hin) in Hy. discriminate.
  - split; [|reflexivity]. intros _ y Hin.
    pose proof (find_none _ _ Hf y Hin) as Hn. unfold fails in Hn.
    destruct (ownError pageMetadata inputFileBytes s y); [discriminate | reflexivity].
Qed.

(** X6. What is rendered depends on the templates registered and on the
    host, not on the log nor on whether the map was already initialised;
    in particular rendering the same tree again, in the state the first
    rendering leaves, gives the same output or the same error. *)
Theorem X6_rendering_again pageMetadata (n : Node) inputFileBytes s :
  (renderAstNode pageMetadata n inputFileBytes
     (renderAstNode pageMetadata n inputFileBytes s).2).1
  = (renderAstNode pageMetadata n inputFileBytes s).1
  /\ (forall s', registry s' = registry s -> world s' = world s ->
        (renderAstNode pageMetadata n inputFileBytes s').1
        = (renderAstNode pageMetadata n inputFileBytes s).1).
Proof.
  split.
  - symmetry. apply renderAstNode_stable, extends_same_host, renderAstNode_extends.
  - intros s' R W. apply renderAstNode_stable. split; assumption.
Qed.

(** X7. The renderer only reads: whatever the tree and the outcome, the
    host is as before and every call added to the log is a [ReadFile];
    and every error, of whatever step, comes with the empty string. *)
Theorem X7_rendering_only_reads pageMetadata (n : Node) inputFileBytes s :
  let r := renderAstNode pageMetadata n inputFileBytes s in
  world r.2 = world s
  /\ (exists reads, calls r.2 = calls s ++ reads /\ forallb isRead reads = true)
  /\ (forall err, r.1.2 = Some err -> r.1.1 = "").
Proof.
  cbv zeta. destruct (renderAstNode_extends pageMetadata inputFileBytes n s) as (_ & W & C).
  split; [exact W | split; [exact C|]].
  intros err H.
  destruct (renderAstNode pageMetadata n inputFileBytes s) as [[output e] s1] eqn:Hr.
  simpl in H. subst e. exact (renderAstNode_error _ _ _ _ _ _ _ Hr).
Qed.

(** X8. The [Children] a template receives is the newline-join of the
    fragments of the children of its node, in their order: the fragment of
    a node with a first child is its template instantiated on that join,
    whenever the children can be rendered. *)
Theorem X8_children_are_joined pageMetadata (n child : Node) inputFileBytes s :
  FirstChild n = Some child ->
  (forall ni, In ni (siblings child) ->
     (renderOwn pageMetadata ni inputFileBytes s).1.2 = None) ->
  (renderOwn pageMetadata n inputFileBytes s).1 =
    let '(templateContent, err, _) := getTemplateContent (Kind n) s in
    match err with
    | Some err => ("", Some err)
    | None =>
        renderTemplateToString templateContent
          {| Meta := pageMetadata;
             Config := generateTemplateDataConfig n;
             Content := generateTemplateDataContent n inputFileBytes;
             Children :=
               strings.Join
                 (map (fun ni => (renderOwn pageMetadata ni inputFileBytes s).1.1)
                    (siblings child)) newline |}
    end.
Proof.
  intros Hc Hall. unfold renderOwn at 1. rewrite Hc.
  pose proof (proj1 (chain_rendered pageMetadata inputFileBytes child s) Hall) as Hr.
  pose proof (renderAstNode_extends pageMetadata inputFileBytes child s) as He.
  destruct (renderAstNode pageMetadata child inputFileBytes s) as [[cc e] s1].
  simpl in Hr, He. injection Hr as -> ->.
  pose proof (getTemplateContent_stable (Kind n) s s1 (extends_same_host _ _ He)) as Hg.
  destruct (getTemplateContent (Kind n) s) as [[tc0 g0] u0].
  destruct (getTemplateContent (Kind n) s1) as [[tc1 g1] u1].
  simpl in Hg. injection Hg as -> ->.
  destruct g1 as [e|]; [reflexivity|].
  destruct (renderTemplateToString _ _) as [output e]. reflexivity.
Qed.

(** X9. In a process whose template map was never set, a tree with a node
    of an extension kind (a table, a strikethrough or a task box of the
    GFM extension that [NewParser] loads) is never rendered, whatever the
    host and the templates on it. *)
Theorem X9_extension_kinds_never_render pageMetadata (n x : Node) inputFileBytes s :
  KindTemplateMap s = ∅ -> In x (visit n) -> isCore (Kind x) = false ->
  exists err, (renderAstNode pageMetadata n inputFileBytes s).1 = ("", Some err).
Proof.
  intros Hs Hin Hx.
  assert (Hreg : registry s !! Kind x = None).
  { destruct (Kind x); try discriminate Hx. now apply registry_extension. }
  pose proof (first_failure pageMetadata inputFileBytes n s s (conj eq_refl eq_refl)) as Hf.
  destruct (find (fails pageMetadata inputFileBytes s) (visit n)) as [y|] eqn:Hfind.
  - apply find_some in Hfind as [_ Hy]. apply fails_true in Hy as [err Hy].
    rewrite Hy in Hf. exists err.
    destruct (renderAstNode pageMetadata n inputFileBytes s) as [[output e] s1] eqn:Hr.
    simpl in Hf. subst e. simpl. now rewrite (renderAstNode_error _ _ _ _ _ _ _ Hr).
  - exfalso. pose proof (find_none _ _ Hfind x Hin) as Hn. unfold fails in Hn.
    rewrite (ownError_unregistered pageMetadata inputFileBytes s x Hreg) in Hn.
    discriminate.
Qed.

End Traces.

(** *** More on the page-assembly entry point *)

Section Assembly.
Context {ext : Externals}.

Abbreviation Node := (ast.Node Segment).

(** X10. [RenderAst] looks at the four required keys only: two front
    matters that agree on them are treated alike, whatever else they hold. *)
Theorem X10_other_keys_ignored (m m' : gmap string GoValue) (n : Node) inputFileBytes s :
  (forall key, In key requiredKeys -> m !! key = m' !! key) ->
  RenderAst m n inputFileBytes s = RenderAst m' n inputFileBytes s.
Proof.
  intros H. unfold RenderAst.
  rewrite (H "title"), (H "description"), (H "slug"), (H "path");
    [reflexivity | simpl; tauto ..].
Qed.

(** X11. The calls of [RenderAst] have one shape: template reads, and then
    either nothing (an error is returned and the host is as before), or
    [Stat] of the directory, [MkdirAll] of it at most once, and one
    [WriteFile] as the last call, to the [index.html] of that directory;
    [MkdirAll] without a write after it means that an error is returned. *)
Theorem X11_one_write_at_the_end (m : gmap string GoValue) (n : Node) inputFileBytes s :
  let r := RenderAst m n inputFileBytes s in
  exists reads tail,
    calls r.2 = calls s ++ reads ++ tail
    /\ forallb isRead reads = true
    /\ ((tail = [] /\ world r.2 = world s /\ r.1 <> None)
        \/ exists p output,
             m !! "path" = Some p
             /\ let dir := path.Join ["build"; fmt.Sprintf_s p] in
                let file := path.Join ["build"; fmt.Sprintf_s p; "/index.html"] in
                let data := list_byte_of_string output in
                (tail = [CallStat dir; CallMkdirAll dir os.ModeDir] /\ r.1 <> None)
                \/ tail = [CallStat dir; CallWriteFile file data os.ModeAppend]
                \/ tail = [CallStat dir; CallMkdirAll dir os.ModeDir;
                           CallWriteFile file data os.ModeAppend]).
Proof.
  cbv zeta.
  assert (Hstop : forall err,
             RenderAst m n inputFileBytes s = (Some err, s) ->
             exists reads tail,
               calls (RenderAst m n inputFileBytes s).2 = calls s ++ reads ++ tail
               /\ forallb isRead reads = true
               /\ ((tail = [] /\ world (RenderAst m n inputFileBytes s).2 = world s
                    /\ (RenderAst m n inputFileBytes s).1 <> None)
                   \/ exists p output,
                        m !! "path" = Some p
                        /\ ((tail = [CallStat (path.Join ["build"; fmt.Sprintf_s p]);
                                     CallMkdirAll (path.Join ["build"; fmt.Sprintf_s p])
                                       os.ModeDir]
                             /\ (RenderAst m n inputFileBytes s).1 <> None)
                            \/ tail = [CallStat (path.Join ["build"; fmt.Sprintf_s p]);
                                       CallWriteFile
                                         (path.Join ["build"; fmt.Sprintf_s p; "/index.html"])
                                         (list_byte_of_string output) os.ModeAppend]
                            \/ tail = [CallStat (path.Join ["build"; fmt.Sprintf_s p]);
                                       CallMkdirAll (path.Join ["build"; fmt.Sprintf_s p])
                                         os.ModeDir;
                                       CallWriteFile
                                         (path.Join ["build"; fmt.Sprintf_s p; "/index.html"])
                                         (list_byte_of_string output) os.ModeAppend]))).
  { intros err ->. exists [], []. simpl. rewrite app_nil_r.
    repeat split. left. repeat split. discriminate. }
  destruct (find (missing m) requiredKeys) as [key|] eqn:Hf.
  { eapply Hstop, RenderAst_missing, Hf. }
  destruct (all_present _ Hf) as (t & d & sl & p & Ht & Hd & Hs & Hp).
  destruct (strings.HasPrefix (fmt.Sprintf_s p) "/") eqn:Hpre.
  2:{ eapply Hstop, (RenderAst_bad_path _ t d sl p); assumption. }
  clear Hstop. rewrite (RenderAst_valid _ t d sl p) by assumption.
  pose proof (renderAstNode_extends
                {| Title := fmt.Sprintf_s t; Description := fmt.Sprintf_s d;
                   Slug := fmt.Sprintf_s sl; Path := DocumentTemplatePath |}
                inputFileBytes n s) as Hext.
  destruct (renderAstNode _ n inputFileBytes s) as [[output [e|]] s1];
    destruct Hext as (_ & W & reads & C & F); simpl in W, C.
  - exists reads, []. simpl. rewrite app_nil_r. repeat split; try assumption.
    left. repeat split; [exact W | discriminate].
  - exists reads. unfold writeOutput. simpl.
    destruct (os_IsNotExist _); simpl.
    + destruct (os_MkdirAll _ _ _) as [[e|] w]; simpl.
      * eexists. rewrite C, <- !app_assoc. split; [reflexivity|]. split; [exact F|].
        right. exists p, output. split; [exact Hp|]. left. split; [reflexivity | discriminate].
      * destruct (ioutil_WriteFile _ _ _ w) as [e w']; simpl.
        eexists. rewrite C, <- !app_assoc. split; [reflexivity|]. split; [exact F|].
        right. exists p, output. split; [exact Hp|]. right. right. reflexivity.
    + destruct (ioutil_WriteFile _ _ _ _) as [e w']; simpl.
      eexists. rewrite C, <- !app_assoc. split; [reflexivity|]. split; [exact F|].
      right. exists p, output. split; [exact Hp|]. right. left. reflexivity.
Qed.

End Assembly.

(** *** The parser *)

Section Parsing.
Context {ext : Externals} {pext : parser.ParserExternals}.

Abbreviation Node := (ast.Node Segment).

Lemma length_append (x y : string) :
  String.length (x +:+ y) = (String.length x + String.length y)%nat.
Proof.
  induction x as [|c x IH]; [reflexivity|].
  change (S (String.length (x +:+ y)) = S (String.length x + String.length y)).
  now rewrite IH.
Qed.

Lemma from_append (x y : string) : strings.from (String.length x) (x +:+ y) = y.
Proof.
  induction x as [|c x IH]; [destruct y; reflexivity|].
  change (strings.from (String.length x) (x +:+ y) = y). exact IH.
Qed.

Lemma from_split (n : nat) (s : string) : exists x, s = x +:+ strings.from n s.
Proof.
  revert s. induction n as [|n IH]; intros s.
  - exists "". destruct s; reflexivity.
  - destruct s as [|c s]; [exists ""; reflexivity|].
    destruct (IH s) as [x Hx]. exists (String c x).
    change (String c s = String c (x +:+ strings.from n s)). now rewrite <- Hx.
Qed.

(** [strings.HasSuffix] holds of the strings that end with the suffix. *)
Lemma HasSuffix_iff (s suffix : string) :
  strings.HasSuffix s suffix = true <-> exists x, s = x +:+ suffix.
Proof.
  unfold strings.HasSuffix. rewrite andb_true_iff, Nat.leb_le, String.eqb_eq. split.
  - intros [_ H]. destruct (from_split (String.length s - String.length suffix) s) as [x Hx].
    exists x. now rewrite H in Hx.
  - intros [x ->]. rewrite length_append. split; [lia|].
    replace (String.length x + String.length suffix - String.length suffix)%nat
      with (String.length x) by lia.
    apply from_append.
Qed.

(** X12. [ParseFile] refuses every name that does not end in [.md] (the
    test is exact: [.MD] or a trailing space do not pass) before it asks
    anything of the host, and for a name that ends in [.md] its first and
    only call is reading that file. *)
Theorem X12_extension_checked_first (p : parser.Parser) (filepath : string) (s : State) :
  ((forall x, filepath <> x +:+ ".md") ->
   parser.ParseFile p filepath s = ((None, None, None, Some parser.errExtension), s))
  /\ (forall x, filepath = x +:+ ".md" ->
        calls (parser.ParseFile p filepath s).2 = calls s ++ [CallReadFile filepath]).
Proof.
  split.
  - intros H. unfold parser.ParseFile.
    destruct (strings.HasSuffix filepath ".md") eqn:E; [|reflexivity].
    apply HasSuffix_iff in E as [x ->]. now contradiction (H x).
  - intros x Hx. unfold parser.ParseFile.
    rewrite (proj2 (HasSuffix_iff filepath ".md") (ex_intro _ x Hx)). simpl.
    destruct (ioutil_ReadFile filepath (world s)) as [content|e]; [|reflexivity].
    destruct (parser.md p content) as [documentNode metaContext].
    destruct (parser.meta_TryGet metaContext) as [metadata [e|]]; reflexivity.
Qed.

(** X13. [ParseFile] returns either an error and nothing else, or no
    error and a document: then the buffer it returns is the content of
    the file as read, the document is the one parsed from that very
    buffer, and the metadata is what [meta.TryGet] found in the context
    of that parse.  It never changes the host nor the template map. *)
Theorem X13_results_belong_together (p : parser.Parser) (filepath : string) (s : State) :
  let r := parser.ParseFile p filepath s in
  world r.2 = world s /\ KindTemplateMap r.2 = KindTemplateMap s
  /\ (forall err, r.1.2 = Some err -> r.1 = (None, None, None, Some err))
  /\ (r.1.2 = None ->
      exists mdFileContent,
        ioutil_ReadFile filepath (world s) = inl mdFileContent
        /\ parser.meta_TryGet (parser.md p mdFileContent).2 = (r.1.1.1.1, None)
        /\ r.1.1.1.2 = Some (parser.md p mdFileContent).1
        /\ r.1.1.2 = Some mdFileContent).
Proof.
  cbv zeta. unfold parser.ParseFile.
  destruct (strings.HasSuffix filepath ".md"); simpl.
  2:{ repeat split; try discriminate; intros err [= <-]; reflexivity. }
  destruct (ioutil_ReadFile filepath (world s)) as [content|e]; simpl.
  2:{ repeat split; try discriminate; intros err [= <-]; reflexivity. }
  destruct (parser.md p content) as [documentNode metaContext] eqn:Hmd.
  destruct (parser.meta_TryGet metaContext) as [metadata [e|]] eqn:Hmeta; simpl.
  - repeat split; try discriminate; intros err [= <-]; reflexivity.
  - repeat split; [discriminate|]. intros _. exists content.
    rewrite Hmd. simpl. rewrite Hmeta. repeat split.
Qed.

(** X14. When the file cannot be read, or when its front matter cannot be
    read back, [ParseFile] wraps the error of that step in a parsing
    error and returns nothing else; in the second case the document that
    was parsed is dropped. *)
Theorem X14_errors_are_wrapped (p : parser.Parser) (x : string) (s : State) :
  let filepath := x +:+ ".md" in
  (forall err,
      ioutil_ReadFile filepath (world s) = inr err ->
      (parser.ParseFile p filepath s).1 = (None, None, None, Some ("parsing error: " +:+ err)))
  /\ (forall mdFileContent metadata err,
        ioutil_ReadFile filepath (world s) = inl mdFileContent ->
        parser.meta_TryGet (parser.md p mdFileContent).2 = (metadata, Some err) ->
        (parser.ParseFile p filepath s).1 =
          (None, None, None, Some ("parsing error: error getting metadata: " +:+ err))).
Proof.
  cbv zeta. unfold parser.ParseFile.
  rewrite (proj2 (HasSuffix_iff (x +:+ ".md") ".md") (ex_intro _ x eq_refl)). simpl.
  split.
  - intros err ->. reflexivity.
  - intros content metadata err -> H.
    destruct (parser.md p content) as [documentNode metaContext]. simpl in H.
    rewrite H. reflexivity.
Qed.

End Parsing.

(** *** Where the page is written *)

Section OutputPath.

Lemma append_cons c (x y : string) : String c x +:+ y = String c (x +:+ y).
Proof. reflexivity. Qed.

Lemma split_nonempty (s : string) : path.split s <> [].
Proof.
  destruct s as [|c s]; simpl; [discriminate|].
  destruct (Ascii.eqb c "/"); [discriminate|]. destruct (path.split s); discriminate.
Qed.

(** Splitting at a slash splits the list of elements. *)
Lemma split_app (x y : string) :
  path.split (x +:+ String "/" y) = path.split x ++ path.split y.
Proof.
  induction x as [|c x IH]; [reflexivity|].
  rewrite append_cons. simpl. rewrite IH.
  destruct (Ascii.eqb c "/"); [reflexivity|].
  destruct (path.split x) as [|h t] eqn:E; [now contradiction (split_nonempty x)|].
  reflexivity.
Qed.

Lemma cleanStep_kept rooted stack e :
  Forall (fun x => path.kept x = true) stack ->
  Forall (fun x => path.kept x = true) (path.cleanStep rooted stack e).
Proof.
  intros H. unfold path.cleanStep.
  destruct (String.eqb e "" || String.eqb e ".") eqn:E; [exact H|].
  assert (Ke : path.kept e = true) by (unfold path.kept; now rewrite E).
  destruct (String.eqb e "..").
  - destruct stack as [|top rest]; [destruct rooted; repeat constructor; exact Ke|].
    destruct (String.eqb top ".."); [constructor; assumption | now inversion H].
  - constructor; assumption.
Qed.

Lemma fold_cleanStep_kept rooted l :
  forall stack,
    Forall (fun x => path.kept x = true) stack ->
    Forall (fun x => path.kept x = true) (fold_left (path.cleanStep rooted) l stack).
Proof.
  induction l as [|e l IH]; intros stack H; [exact H|].
  simpl. apply IH, cleanStep_kept, H.
Qed.

(** Without [..] the clean-up only drops the empty elements and the dots. *)
Lemma fold_cleanStep_plain rooted l :
  (forall e, In e l -> e <> "..") ->
  forall stack,
    fold_left (path.cleanStep rooted) l stack = rev (List.filter path.kept l) ++ stack.
Proof.
  induction l as [|e l IH]; intros H stack; [reflexivity|].
  simpl. rewrite IH by (intros x Hx; apply H; now right).
  unfold path.cleanStep, path.kept at 2.
  destruct (String.eqb e "" || String.eqb e "."); simpl; [reflexivity|].
  destruct (String.eqb e "..") eqn:E.
  - apply String.eqb_eq in E. now contradiction (H e (or_introl eq_refl)).
  - rewrite <- app_assoc. reflexivity.
Qed.

Lemma Join_snoc (l : list string) (x sep : string) :
  strings.Join (l ++ [x]) sep =
    match l with [] => x | _ => strings.Join l sep +:+ sep +:+ x end.
Proof.
  induction l as [|a l IH]; [reflexivity|].
  destruct l as [|b l]; [reflexivity|].
  change (a +:+ sep +:+ strings.Join ((b :: l) ++ [x]) sep
          = (a +:+ sep +:+ strings.Join (b :: l) sep) +:+ sep +:+ x).
  rewrite IH, !string_app_assoc. reflexivity.
Qed.

Lemma append_empty (x y : string) : x +:+ y = "" -> x = "" /\ y = "".
Proof.
  destruct x as [|c x].
  - change (y = "" -> "" = "" /\ y = ""). intros ->. split; reflexivity.
  - rewrite append_cons. discriminate.
Qed.

(** A join of kept elements is neither empty nor a dot. *)
Lemma Join_kept (l : list string) :
  l <> [] -> Forall (fun x => path.kept x = true) l ->
  strings.Join l "/" <> "" /\ strings.Join l "/" <> ".".
Proof.
  intros Hl H. destruct l as [|a l]; [contradiction|]. clear Hl.
  inversion H as [|? ? Ka _]; subst. unfold path.kept in Ka.
  apply negb_true_iff, orb_false_iff in Ka as [K1 K2].
  apply String.eqb_neq in K1, K2.
  destruct l as [|b l]; [split; assumption|].
  change (strings.Join (a :: b :: l) "/") with (a +:+ "/" +:+ strings.Join (b :: l) "/").
  split; intros E.
  - apply append_empty in E as [E _]. contradiction.
  - destruct a as [|c a]; [contradiction|]. rewrite append_cons in E.
    injection E as _ E. apply append_empty in E as [_ E]. discriminate.
Qed.

Lemma Clean_build (rest : string) :
  path.Clean ("build" +:+ rest) =
    let out := strings.Join
                 (rev (fold_left (path.cleanStep false) (path.split ("build" +:+ rest)) []))
                 "/" in
    if String.eqb out "" then "." else out.
Proof. reflexivity. Qed.

Lemma file_in_directory (pagePath : string) :
  strings.HasPrefix pagePath "/" = true ->
  let dir := path.Join ["build"; pagePath] in
  let file := path.Join ["build"; pagePath; "/index.html"] in
  file = if String.eqb dir "." then "index.html" else dir +:+ "/index.html".
Proof.
  intros Hp. destruct pagePath as [|c q]; [discriminate|]. cbv zeta.
  set (p := String c q).
  assert (Hd : path.Join ["build"; p] = path.Clean ("build" +:+ String "/" p))
    by reflexivity.
  assert (Hf : path.Join ["build"; p; "/index.html"]
               = path.Clean ("build" +:+ (String "/" p +:+ String "/" "/index.html")))
    by reflexivity.
  rewrite Hd, Hf, !Clean_build. cbv zeta. rewrite <- string_app_assoc.
  rewrite (split_app ("build" +:+ String "/" p) "/index.html"), fold_left_app.
  set (S := fold_left (path.cleanStep false) (path.split ("build" +:+ String "/" p)) []).
  assert (HS : Forall (fun x => path.kept x = true) S)
    by (apply fold_cleanStep_kept; constructor).
  change (fold_left (path.cleanStep false) (path.split "/index.html") S)
    with ("index.html" :: S).
  change (rev ("index.html" :: S)) with (rev S ++ ["index.html"]).
  rewrite Join_snoc.
  destruct (rev S) as [|a l] eqn:E; [reflexivity|].
  assert (HK : Forall (fun x => path.kept x = true) (a :: l)).
  { rewrite <- E. apply List.Forall_rev, HS. }
  destruct (Join_kept (a :: l) ltac:(discriminate) HK) as [N1 N2].
  apply String.eqb_neq in N1, N2.
  assert (N3 : String.eqb (strings.Join (a :: l) "/" +:+ "/" +:+ "index.html") "" = false).
  { apply String.eqb_neq. intros E3. apply append_empty in E3 as [_ E3]. discriminate. }
  rewrite N1, N2, N3. reflexivity.
Qed.

(** X15. The file that [RenderAst] writes lies directly in the directory
    that it has checked and, if need be, created: after the [Stat] of the
    directory, the only name a [WriteFile] can have is that of the
    directory followed by [/index.html] (and [index.html] itself when the
    page path climbs back to the working directory), and what is written
    is the rendered page. *)
Theorem X15_file_is_in_the_directory {ext : Externals} (pagePath output : string)
    (s : State) :
  strings.HasPrefix pagePath "/" = true ->
  let dir := path.Join ["build"; pagePath] in
  exists rest,
    calls (writeOutput pagePath output s).2 = calls s ++ CallStat dir :: rest
    /\ forall name data perm,
         In (CallWriteFile name data perm) rest ->
         name = (if String.eqb dir "." then "index.html" else dir +:+ "/index.html")
         /\ data = list_byte_of_string output.
Proof.
  intros Hp. cbv zeta. pose proof (file_in_directory pagePath Hp) as Hfile.
  cbv zeta in Hfile. unfold writeOutput. simpl.
  destruct (os_IsNotExist _); simpl.
  - destruct (os_MkdirAll _ _ _) as [[e|] w]; simpl.
    + eexists. rewrite <- app_assoc. split; [reflexivity|].
      intros name data perm [H | []]. discriminate H.
    + destruct (ioutil_WriteFile _ _ _ w) as [e w']; simpl.
      eexists. rewrite <- !app_assoc. split; [reflexivity|].
      intros name data perm [H | [H | []]]; [discriminate H|].
      injection H as <- <- _. split; [exact Hfile | reflexivity].
  - destruct (ioutil_WriteFile _ _ _ _) as [e w']; simpl.
    eexists. rewrite <- !app_assoc. split; [reflexivity|].
    intros name data perm [H | []]. injection H as <- <- _.
    split; [exact Hfile | reflexivity].
Qed.

(** X16. A page path without [..] element keeps the page under [build]:
    the directory is [build] followed by the elements of the path, the
    empty ones and the dots left out, and the file is its [index.html]. *)
Theorem X16_plain_paths_stay_under_build (pagePath : string) :
  strings.HasPrefix pagePath "/" = true ->
  (forall e, In e (path.split pagePath) -> e <> "..") ->
  let dir := strings.Join ("build" :: List.filter path.kept (path.split pagePath)) "/" in
  path.Join ["build"; pagePath] = dir
  /\ path.Join ["build"; pagePath; "/index.html"] = dir +:+ "/index.html"
  /\ strings.HasPrefix dir "build" = true.
Proof.
  intros Hp Hdots. cbv zeta.
  assert (Hd : path.Join ["build"; pagePath]
               = strings.Join ("build" :: List.filter path.kept (path.split pagePath)) "/").
  { destruct pagePath as [|c q]; [discriminate|]. set (p := String c q) in *.
    change (path.Join ["build"; p]) with (path.Clean ("build" +:+ String "/" p)).
    rewrite Clean_build. cbv zeta.
    rewrite (split_app "build" p), fold_left_app.
    change (fold_left (path.cleanStep false) (path.split "build") []) with ["build"].
    rewrite (fold_cleanStep_plain false _ Hdots), rev_app_distr, rev_involutive.
    change (rev ["build"] ++ List.filter path.kept (path.split p))
      with ("build" :: List.filter path.kept (path.split p)).
    destruct (String.eqb _ "") eqn:E; [|reflexivity].
    apply String.eqb_eq in E. exfalso. revert E.
    destruct (List.filter path.kept (path.split p)); discriminate. }
  split; [exact Hd | split].
  - pose proof (file_in_directory pagePath Hp) as H. cbv zeta in H.
    rewrite Hd in H.
    destruct (String.eqb _ ".") eqn:E in H; [|exact H].
    apply String.eqb_eq in E. exfalso. revert E.
    destruct (List.filter path.kept (path.split pagePath)); discriminate.
  - destruct (List.filter path.kept (path.split pagePath)); reflexivity.
Qed.

End OutputPath.

(** *** The properties at work on the small host *)

(** Witness of C1: the two paragraphs of the demo page. *)
Lemma C1_witness :
  let s := demo.start demo.templateStore in
  let fragment ni := (renderOwn demo.meta ni demo.source s).1 in
  (forall ni, In ni (siblings demo.paragraphs) -> (fragment ni).2 = None)
  /\ (renderAstNode demo.meta demo.paragraphs demo.source s).1 =
       (strings.Join (map (fun ni => (fragment ni).1) (siblings demo.paragraphs)) newline,
        None)
  /\ strings.Join (map (fun ni => (fragment ni).1) (siblings demo.paragraphs)) newline =
       "<p><span>hello" +:+ newline +:+ "</span></p>" +:+ newline
       +:+ "<p><span>world<br/>" +:+ newline +:+ "</span></p>".
Proof.
  cbv zeta.
  assert (H : forall ni, In ni (siblings demo.paragraphs) ->
              (renderOwn demo.meta ni demo.source (demo.start demo.templateStore)).1.2 = None).
  { intros ni [<- | [<- | []]]; vm_compute; reflexivity. }
  split; [exact H | split].
  - exact (proj1 (C1_sibling_chain_in_order demo.meta demo.paragraphs demo.source
                    (demo.start demo.templateStore)) H).
  - vm_compute. reflexivity.
Defined.

(** Witness of C2: the first five bytes of ["hello world"]. *)
Lemma C2_witness :
  let segment := {| demo.Start := 0; demo.Stop := 5 |} in
  @Segment_Value demo.host segment demo.source = list_byte_of_string "hello"
  /\ generateTemplateDataContent (ext := demo.host)
       (mkNode (Text segment true) None None) demo.source = "hello" +:+ newline
  /\ generateTemplateDataContent (ext := demo.host)
       (mkNode (Text segment false) None None) demo.source = "hello<br/>" +:+ newline.
Proof.
  cbv zeta.
  assert (H : @Segment_Value demo.host {| demo.Start := 0; demo.Stop := 5 |} demo.source
              = list_byte_of_string "hello") by (vm_compute; reflexivity).
  split; [exact H|].
  exact (proj2 (C2_text_content (ext := demo.host))
           {| demo.Start := 0; demo.Stop := 5 |} None None demo.source H).
Defined.

(** Witness of C3: the two lines of ["foo\nbar\n"]. *)
Lemma C3_witness :
  let l1 := {| demo.Start := 0; demo.Stop := 4 |} in
  let l2 := {| demo.Start := 4; demo.Stop := 8 |} in
  @Segment_Value demo.host l1 demo.codeSource = list_byte_of_string ("foo" +:+ newline)
  /\ @Segment_Value demo.host l2 demo.codeSource = list_byte_of_string ("bar" +:+ newline)
  /\ generateTemplateDataContent (ext := demo.host) (mkNode (FencedCodeBlock [l1; l2]) None None)
       demo.codeSource = "foo" +:+ newline +:+ "bar" +:+ newline.
Proof.
  cbv zeta.
  assert (H1 : @Segment_Value demo.host {| demo.Start := 0; demo.Stop := 4 |} demo.codeSource
               = list_byte_of_string ("foo" +:+ newline)) by (vm_compute; reflexivity).
  assert (H2 : @Segment_Value demo.host {| demo.Start := 4; demo.Stop := 8 |} demo.codeSource
               = list_byte_of_string ("bar" +:+ newline)) by (vm_compute; reflexivity).
  split; [exact H1 | split; [exact H2|]].
  exact (proj2 (C3_fenced_code_content (ext := demo.host))
           {| demo.Start := 0; demo.Stop := 4 |} {| demo.Start := 4; demo.Stop := 8 |}
           None None demo.codeSource H1 H2).
Defined.

(** Witness of C4: a paragraph has no configuration. *)
Lemma C4_witness :
  Kind (demo.leaf Paragraph) <> KindHeading
  /\ Kind (demo.leaf Paragraph) <> KindEmphasis
  /\ generateTemplateDataConfig (demo.leaf Paragraph) = ∅.
Proof.
  assert (H1 : Kind (demo.leaf Paragraph) <> KindHeading) by (simpl; discriminate).
  assert (H2 : Kind (demo.leaf Paragraph) <> KindEmphasis) by (simpl; discriminate).
  split; [exact H1 | split; [exact H2|]].
  exact (proj2 (proj2 (C4_config (ext := demo.host))) (demo.leaf Paragraph) H1 H2).
Defined.

(** Witness of C5: front matter without a slug. *)
Lemma C5_witness :
  In "slug" requiredKeys /\ demo.withoutSlug !! "slug" = None
  /\ forall (n : ast.Node (@Segment demo.host)) inputFileBytes s,
       RenderAst demo.withoutSlug n inputFileBytes s = (Some (errMissingField "slug"), s).
Proof.
  assert (Hin : In "slug" requiredKeys) by (simpl; tauto).
  assert (Hnone : demo.withoutSlug !! "slug" = None) by (vm_compute; reflexivity).
  split; [exact Hin | split; [exact Hnone|]].
  destruct (C5_missing_field_rejected (ext := demo.host) demo.withoutSlug "slug" Hin Hnone)
    as (named & _ & _ & Hf & _ & H).
  vm_compute in Hf. injection Hf as <-. exact H.
Defined.

(** Witness of C9: the demo page. *)
Lemma C9_witness :
  demo.pageMetadata !! "title" = Some (VString "Home")
  /\ demo.pageMetadata !! "description" = Some (VString "The home page")
  /\ demo.pageMetadata !! "slug" = Some (VString "home")
  /\ demo.pageMetadata !! "path" = Some (VString "/about")
  /\ strings.HasPrefix (fmt.Sprintf_s (VString "/about")) "/" = true
  /\ forall (n : ast.Node (@Segment demo.host)) inputFileBytes s,
       RenderAst demo.pageMetadata n inputFileBytes s =
         let '(output, err, s1) := renderAstNode demo.homeMeta n inputFileBytes s in
         match err with
         | Some err => (Some err, s1)
         | None => writeOutput "/about" output s1
         end.
Proof.
  assert (Ht : demo.pageMetadata !! "title" = Some (VString "Home"))
    by (vm_compute; reflexivity).
  assert (Hd : demo.pageMetadata !! "description" = Some (VString "The home page"))
    by (vm_compute; reflexivity).
  assert (Hs : demo.pageMetadata !! "slug" = Some (VString "home"))
    by (vm_compute; reflexivity).
  assert (Hp : demo.pageMetadata !! "path" = Some (VString "/about"))
    by (vm_compute; reflexivity).
  assert (Hpre : strings.HasPrefix (fmt.Sprintf_s (VString "/about")) "/" = true)
    by reflexivity.
  repeat (split; [assumption|]).
  intros n inputFileBytes s.
  exact (proj1 (C9_page_meta_passed (ext := demo.host) demo.pageMetadata
                  (VString "Home") (VString "The home page") (VString "home")
                  (VString "/about") n inputFileBytes s Ht Hd Hs Hp Hpre)).
Defined.

(** Witness of C10: front matter without title and slug is rejected for
    its title. *)
Lemma C10_witness :
  find (missing demo.withoutTitleAndSlug) requiredKeys = Some "title"
  /\ RenderAst demo.withoutTitleAndSlug demo.twoParagraphs demo.source
       (demo.start demo.templateStore)
     = (Some (errMissingField "title"), demo.start demo.templateStore).
Proof.
  assert (Hf : find (missing demo.withoutTitleAndSlug) requiredKeys = Some "title")
    by (vm_compute; reflexivity).
  split; [exact Hf|].
  exact (proj1 (C10_validation_presence_only (ext := demo.host) demo.withoutTitleAndSlug
                  demo.twoParagraphs demo.source (demo.start demo.templateStore))
           "title" Hf).
Defined.

(** Counterexample to C10 as it is stated: a title that is the number 5
    passes validation and reaches the renderer as ["%!s(int=5)"], which is
    not the default format ["5"] of that value. *)
Lemma C10_counterexample :
  demo.numericTitle !! "title" = Some (VInt 5)
  /\ (forall (n : ast.Node (@Segment demo.host)) inputFileBytes s,
        RenderAst demo.numericTitle n inputFileBytes s =
          let '(output, err, s1) :=
            renderAstNode
              {| Title := "%!s(int=5)"; Description := "The home page"; Slug := "home";
                 Path := DocumentTemplatePath |} n inputFileBytes s in
          match err with
          | Some err => (Some err, s1)
          | None => writeOutput "/about" output s1
          end)
  /\ fmt.Sprintf_v (VInt 5) = "5"
  /\ "%!s(int=5)" <> fmt.Sprintf_v (VInt 5).
Proof.
  split; [vm_compute; reflexivity | split; [|split; [vm_compute; reflexivity|]]].
  - intros n inputFileBytes s.
    apply (RenderAst_valid (ext := demo.host) demo.numericTitle (VInt 5)
             (VString "The home page") (VString "home") (VString "/about"));
      vm_compute; reflexivity.
  - vm_compute. discriminate.
Qed.

(** Witness of C7: with every template file in place a paragraph followed
    by a table fails with the error that names the table. *)
Lemma C7_witness :
  let s := demo.start demo.templateStore in
  In demo.table (visit demo.paragraphThenTable)
  /\ registry s !! Kind demo.table = None
  /\ visit demo.paragraphThenTable = [demo.paragraphThenTable] ++ demo.table :: []
  /\ (forall y, In y [demo.paragraphThenTable] ->
        ownError demo.meta demo.source s y = None)
  /\ (renderAstNode demo.meta demo.paragraphThenTable demo.source s).1
     = ("", Some (errNoTemplate (KindExtension "Table")))
  /\ forall pageMetadata : gmap string GoValue,
       exists err,
         (RenderAst pageMetadata demo.paragraphThenTable demo.source s).1 = Some err
         /\ extends s (RenderAst pageMetadata demo.paragraphThenTable demo.source s).2.
Proof.
  cbv zeta.
  assert (Hin : In demo.table (visit demo.paragraphThenTable)) by (simpl; tauto).
  assert (Hx : registry (demo.start demo.templateStore) !! Kind demo.table = None)
    by (vm_compute; reflexivity).
  assert (Hv : visit demo.paragraphThenTable
               = [demo.paragraphThenTable] ++ demo.table :: []) by reflexivity.
  assert (Hpre : forall y, In y [demo.paragraphThenTable] ->
                   ownError demo.meta demo.source (demo.start demo.templateStore) y = None).
  { intros y [<- | []]. vm_compute. reflexivity. }
  split; [exact Hin | split; [exact Hx | split; [exact Hv | split; [exact Hpre|]]]].
  destruct (C7_unregistered_kind_aborts (ext := demo.host) demo.meta
              demo.paragraphThenTable demo.source (demo.start demo.templateStore)
              demo.table Hin Hx) as (_ & _ & H3 & H4).
  split; [exact (H3 _ _ Hv Hpre) | exact H4].
Defined.

(** Counterexample to C7 as it is stated: with the file of the paragraph
    template missing, a paragraph followed by a table fails with the error
    of the paragraph template, which names no node kind. *)
Lemma C7_counterexample :
  let s := demo.start demo.withoutParagraphTemplate in
  let err :=
    "rendering error: while reading template /blog/templates/block/paragraph.tmpl.html"
    +:+ ": open /blog/templates/block/paragraph.tmpl.html: no such file or directory" in
  In demo.table (visit demo.paragraphThenTable)
  /\ registry s !! Kind demo.table = None
  /\ (renderAstNode demo.meta demo.paragraphThenTable demo.source s).1 = ("", Some err)
  /\ forall nodeKind, err <> errNoTemplate nodeKind.
Proof.
  cbv zeta. split; [simpl; tauto | split; [vm_compute; reflexivity | split]].
  - vm_compute. reflexivity.
  - intros nodeKind H. vm_compute in H. discriminate H.
Qed.

(** Witness of C8: a paragraph has no content of its own. *)
Lemma C8_witness :
  Kind (demo.leaf Paragraph) <> KindText
  /\ Kind (demo.leaf Paragraph) <> KindFencedCodeBlock
  /\ generateTemplateDataContent (demo.leaf Paragraph) demo.source = "".
Proof.
  assert (H1 : Kind (demo.leaf Paragraph) <> KindText) by (simpl; discriminate).
  assert (H2 : Kind (demo.leaf Paragraph) <> KindFencedCodeBlock) by (simpl; discriminate).
  split; [exact H1 | split; [exact H2|]].
  exact (C8_other_kinds_empty_content (demo.leaf Paragraph) demo.source H1 H2).
Defined.

(** Witness of X4: the demo page has five nodes and its rendering reads
    five template files. *)
Lemma X4_witness :
  let s := demo.start demo.templateStore in
  let r := renderAstNode demo.meta demo.twoParagraphs demo.source s in
  r = (r.1.1, None, r.2)
  /\ calls r.2 = calls s ++ map (templateRead s) (visit demo.twoParagraphs)
  /\ length (calls r.2) = (length (calls s) + length (visit demo.twoParagraphs))%nat
  /\ length (visit demo.twoParagraphs) = 5%nat.
Proof.
  cbv zeta.
  assert (Hr : renderAstNode demo.meta demo.twoParagraphs demo.source
                 (demo.start demo.templateStore)
               = ((renderAstNode demo.meta demo.twoParagraphs demo.source
                     (demo.start demo.templateStore)).1.1, None,
                  (renderAstNode demo.meta demo.twoParagraphs demo.source
                     (demo.start demo.templateStore)).2))
    by (vm_compute; reflexivity).
  split; [exact Hr|].
  destruct (X4_one_read_per_node (ext := demo.host) demo.meta demo.twoParagraphs
              demo.source (demo.start demo.templateStore) _ _ Hr) as (H1 & H2 & _).
  split; [exact H1 | split; [exact H2 | reflexivity]].
Defined.

(** Witness of X8: the document of the demo page receives its two
    paragraphs joined by a newline. *)
Lemma X8_witness :
  let s := demo.start demo.templateStore in
  FirstChild demo.twoParagraphs = Some demo.paragraphs
  /\ (forall ni, In ni (siblings demo.paragraphs) ->
        (renderOwn demo.meta ni demo.source s).1.2 = None)
  /\ (renderOwn demo.meta demo.twoParagraphs demo.source s).1 =
       ("<html><title>T</title><p><span>hello" +:+ newline +:+ "</span></p>" +:+ newline
        +:+ "<p><span>world<br/>" +:+ newline +:+ "</span></p></html>", None).
Proof.
  cbv zeta.
  assert (Hc : FirstChild demo.twoParagraphs = Some demo.paragraphs) by reflexivity.
  assert (Hall : forall ni, In ni (siblings demo.paragraphs) ->
                   (renderOwn demo.meta ni demo.source
                      (demo.start demo.templateStore)).1.2 = None).
  { intros ni [<- | [<- | []]]; vm_compute; reflexivity. }
  split; [exact Hc | split; [exact Hall|]].
  pose proof (X8_children_are_joined (ext := demo.host) demo.meta demo.twoParagraphs
                demo.paragraphs demo.source (demo.start demo.templateStore) Hc Hall) as H.
  vm_compute. vm_compute in H. exact H.
Defined.

(** Witness of X9: a paragraph followed by a table, in a fresh process. *)
Lemma X9_witness :
  let s := demo.start demo.templateStore in
  KindTemplateMap s = ∅
  /\ In demo.table (visit demo.paragraphThenTable)
  /\ isCore (Kind demo.table) = false
  /\ exists err,
       (renderAstNode demo.meta demo.paragraphThenTable demo.source s).1 = ("", Some err).
Proof.
  cbv zeta.
  assert (Hs : KindTemplateMap (demo.start demo.templateStore) = ∅) by reflexivity.
  assert (Hin : In demo.table (visit demo.paragraphThenTable)) by (simpl; tauto).
  assert (Hx : isCore (Kind demo.table) = false) by reflexivity.
  split; [exact Hs | split; [exact Hin | split; [exact Hx|]]].
  exact (X9_extension_kinds_never_render (ext := demo.host) demo.meta
           demo.paragraphThenTable demo.table demo.source
           (demo.start demo.templateStore) Hs Hin Hx).
Defined.

(** Witness of X10: a front matter with tags is rendered as the one
    without. *)
Lemma X10_witness :
  (forall key, In key requiredKeys -> demo.pageMetadata !! key = demo.withTags !! key)
  /\ RenderAst demo.pageMetadata demo.twoParagraphs demo.source
       (demo.start demo.templateStore)
     = RenderAst demo.withTags demo.twoParagraphs demo.source
         (demo.start demo.templateStore).
Proof.
  assert (H : forall key, In key requiredKeys ->
                demo.pageMetadata !! key = demo.withTags !! key).
  { intros key [<- | [<- | [<- | [<- | []]]]]; vm_compute; reflexivity. }
  split; [exact H|].
  exact (X10_other_keys_ignored (ext := demo.host) demo.pageMetadata demo.withTags
           demo.twoParagraphs demo.source (demo.start demo.templateStore) H).
Defined.

(** Witness of X12: a text file is refused, a markdown file is read. *)
Lemma X12_witness :
  let s := demo.start demo.withPost in
  (forall x, "notes.txt" <> x +:+ ".md")
  /\ parser.ParseFile (pext := demo.parserHost) demo.mdParser "notes.txt" s
     = ((None, None, None, Some parser.errExtension), s)
  /\ calls (parser.ParseFile (pext := demo.parserHost) demo.mdParser "posts/hello.md" s).2
     = [CallReadFile "posts/hello.md"].
Proof.
  cbv zeta.
  assert (H : forall x, "notes.txt" <> x +:+ ".md").
  { intros x E.
    assert (Hs : strings.HasSuffix "notes.txt" ".md" = true)
      by (apply HasSuffix_iff; exists x; exact E).
    vm_compute in Hs. discriminate Hs. }
  split; [exact H | split].
  - exact (proj1 (X12_extension_checked_first (pext := demo.parserHost) demo.mdParser
                    "notes.txt" (demo.start demo.withPost)) H).
  - exact (proj2 (X12_extension_checked_first (pext := demo.parserHost) demo.mdParser
                    "posts/hello.md" (demo.start demo.withPost)) "posts/hello" eq_refl).
Defined.

(** Witness of X13: the markdown file of the demo is parsed and comes back
    with the bytes it was parsed from. *)
Lemma X13_witness :
  let r := parser.ParseFile (pext := demo.parserHost) demo.mdParser "posts/hello.md"
             (demo.start demo.withPost) in
  r.1.2 = None
  /\ exists mdFileContent,
       demo.readFile "posts/hello.md" (world (demo.start demo.withPost)) = inl mdFileContent
       /\ demo.tryGet (parser.md demo.mdParser mdFileContent).2 = (r.1.1.1.1, None)
       /\ r.1.1.1.2 = Some (parser.md demo.mdParser mdFileContent).1
       /\ r.1.1.2 = Some mdFileContent.
Proof.
  cbv zeta.
  assert (H : (parser.ParseFile (pext := demo.parserHost) demo.mdParser "posts/hello.md"
                 (demo.start demo.withPost)).1.2 = None) by (vm_compute; reflexivity).
  split; [exact H|].
  exact (proj2 (proj2 (proj2 (X13_results_belong_together (pext := demo.parserHost)
                                demo.mdParser "posts/hello.md"
                                (demo.start demo.withPost)))) H).
Defined.

(** Witness of X15: the page path ["/.."] leaves [build], and the page is
    written as [index.html] of the working directory. *)
Lemma X15_witness :
  let s := demo.start demo.templateStore in
  strings.HasPrefix "/.." "/" = true
  /\ path.Join ["build"; "/.."] = "."
  /\ exists rest,
       calls (writeOutput "/.." "page" s).2 = calls s ++ CallStat "." :: rest
       /\ forall name data perm,
            In (CallWriteFile name data perm) rest ->
            name = "index.html" /\ data = list_byte_of_string "page".
Proof.
  cbv zeta.
  assert (Hp : strings.HasPrefix "/.." "/" = true) by reflexivity.
  split; [exact Hp | split; [reflexivity|]].
  exact (X15_file_is_in_the_directory (ext := demo.host) "/.." "page"
           (demo.start demo.templateStore) Hp).
Defined.

(** Witness of X16: the page path ["/blog//./about/"]. *)
Lemma X16_witness :
  strings.HasPrefix "/blog//./about/" "/" = true
  /\ (forall e, In e (path.split "/blog//./about/") -> e <> "..")
  /\ path.Join ["build"; "/blog//./about/"] = "build/blog/about"
  /\ path.Join ["build"; "/blog//./about/"; "/index.html"] = "build/blog/about/index.html".
Proof.
  assert (Hp : strings.HasPrefix "/blog//./about/" "/" = true) by reflexivity.
  assert (Hd : forall e, In e (path.split "/blog//./about/") -> e <> "..").
  { intros e H. vm_compute in H.
    destruct H as [<- | [<- | [<- | [<- | [<- | [<- | []]]]]]]; discriminate. }
  split; [exact Hp | split; [exact Hd|]].
  destruct (X16_plain_paths_stay_under_build "/blog//./about/" Hp Hd) as (H1 & H2 & _).
  split; [exact H1 | exact H2].
Defined.

End renderer.
